(** * Bank_MS: the account classes of [bank_system.py]

    A shallow embedding of the classes [BankAccount] and [SavingsAccount]
    (deposit, withdraw, interest, saving to and loading from a JSON file),
    and the properties of them that the specification states.

    Scope of the embedding.
    - Python values are [None], [float] and [str].  The program's own entry
      points build accounts from [input()] (a [str]) and [float(input())] (a
      [float]); JSON [null], numbers with a fraction and strings load to
      these.  Python [int]/[bool] and nested JSON arrays and objects are
      outside the embedding.
    - A [float] is an IEEE 754 binary64 number, the kernel's [PrimFloat.float],
      and [+], [-], [*], [<=], [>] are its operations: rounding, infinities
      and NaN are those of Python.
    - [print] appends a line to [stdout] and never raises (the console can
      encode the rupee sign); a line is kept as the f-string's pieces, not
      as formatted text.
    - The file system: [locate] says, for a name, which file it names (two
      names can name one file) or which exception [open] raises for it (a
      directory that does not exist, a name that is not one); it is a
      parameter, fixed while the program runs.  The files are a finite map
      from the files so named to JSON documents: [json.dump] followed by
      [json.load] gives back the values written.  Of the exceptions of
      [open], the embedding has FileNotFoundError and ValueError. *)

From Stdlib Require Import ZArith Lia Bool Floats.
#[local] Set Warnings "-inexact-float".
From stdpp Require Import base option gmap strings.

Local Open Scope string_scope.

(** ** Python values *)

Inductive pyval : Type :=
| PNone
| PFloat (x : float)
| PStr (s : string).

(** The exceptions that the methods can raise. *)
Inductive exn : Type :=
| ValueError (msg : string)
| TypeError
| KeyError (key : string)
| AttributeError
| FileNotFoundError.

(** The lines that the methods print. *)
Inductive line : Type :=
| Deposited (amount : pyval)            (* "₹{amount} deposited successfully!" *)
| Withdrawn (amount : pyval)            (* "₹{amount} withdrawn successfully!" *)
| Error (e : string)                    (* "Error: {e}" *)
| Account_saved                         (* "Account data saved successfully!" *)
| Savings_saved                         (* "Savings account data saved successfully!" *)
| Account_not_found                     (* "Account not found!" *)
| Annual_interest (rate interest : pyval).
                                        (* "Annual Interest (@{rate*100:.0f}%): ₹{interest:.2f}" *)

(** ** Objects

    An instance of [BankAccount] or of its subclass [SavingsAccount]:
    [__init__] stores its arguments without looking at them. *)
Inductive account : Type :=
| BankAccount (account_number name balance : pyval)
| SavingsAccount (account_number name balance interest_rate : pyval).

Definition account_number (a : account) : pyval :=
  match a with
  | BankAccount n _ _ | SavingsAccount n _ _ _ => n
  end.

Definition name (a : account) : pyval :=
  match a with
  | BankAccount _ nm _ | SavingsAccount _ nm _ _ => nm
  end.

(** [self.__balance] *)
Definition balance (a : account) : pyval :=
  match a with
  | BankAccount _ _ b | SavingsAccount _ _ b _ => b
  end.

Definition set_balance (b : pyval) (a : account) : account :=
  match a with
  | BankAccount n nm _ => BankAccount n nm b
  | SavingsAccount n nm _ r => SavingsAccount n nm b r
  end.

Definition isinstance_SavingsAccount (a : account) : bool :=
  match a with
  | BankAccount _ _ _ => false
  | SavingsAccount _ _ _ _ => true
  end.

(** ** Files *)

(** What [json.load] returns: a dict, or a value that is not one. *)
Inductive json : Type :=
| JObject (data : gmap string pyval)
| JValue (v : pyval).

(** ** Program state: the object a method runs on, the lines printed so
    far (oldest first) and the files of the working directory. *)
Record state : Type := State {
  self : account;
  stdout : list line;
  files : gmap string json
}.

(** ** Statements: a state and exception monad

    A statement returns a value or raises; the state it reached is kept in
    both cases, as an exception in Python undoes nothing. *)
Inductive outcome (A : Type) : Type :=
| Return (a : A)
| Raise (e : exn).
Arguments Return {A} a.
Arguments Raise {A} e.

Definition py (A : Type) : Type := state -> outcome A * state.

Definition ret {A} (a : A) : py A := fun s => (Return a, s).

Definition raise {A} (e : exn) : py A := fun s => (Raise e, s).

Definition bind {A B} (m : py A) (k : A -> py B) : py B :=
  fun s =>
    match m s with
    | (Return a, s') => k a s'
    | (Raise e, s') => (Raise e, s')
    end.

#[global] Instance py_ret : MRet py := @ret.
#[global] Instance py_bind : MBind py := fun A B k m => bind m k.

(** [try: body / except ValueError as e: handler e] *)
Definition try_except_ValueError {A} (body : py A) (handler : string -> py A) : py A :=
  fun s =>
    match body s with
    | (Raise (ValueError msg), s') => handler msg s'
    | r => r
    end.

Definition print (l : line) : py unit :=
  fun s => (Return tt, State (self s) (stdout s ++ [l]) (files s)).

Definition get_self : py account := fun s => (Return (self s), s).

(** [self.__balance = b] *)
Definition assign_balance (b : pyval) : py unit :=
  fun s => (Return tt, State (set_balance b (self s)) (stdout s) (files s)).

(** ** Operators on values *)

(** [x <= y] *)
Definition py_le (x y : pyval) : py bool :=
  match x, y with
  | PFloat a, PFloat b => ret (a <=? b)%float
  | PStr a, PStr b => ret (String.leb a b)
  | _, _ => raise TypeError
  end.

(** [x > y] *)
Definition py_gt (x y : pyval) : py bool :=
  match x, y with
  | PFloat a, PFloat b => ret (b <? a)%float
  | PStr a, PStr b => ret (String.ltb b a)
  | _, _ => raise TypeError
  end.

(** [x + y] *)
Definition py_add (x y : pyval) : py pyval :=
  match x, y with
  | PFloat a, PFloat b => ret (PFloat (a + b)%float)
  | PStr a, PStr b => ret (PStr (a ++ b))
  | _, _ => raise TypeError
  end.

(** [x - y] *)
Definition py_sub (x y : pyval) : py pyval :=
  match x, y with
  | PFloat a, PFloat b => ret (PFloat (a - b)%float)
  | _, _ => raise TypeError
  end.

(** [x * y] *)
Definition py_mul (x y : pyval) : py pyval :=
  match x, y with
  | PFloat a, PFloat b => ret (PFloat (a * b)%float)
  | _, _ => raise TypeError
  end.

(** [x == y] *)
Definition py_eq (x y : pyval) : bool :=
  match x, y with
  | PNone, PNone => true
  | PFloat a, PFloat b => (a =? b)%float
  | PStr a, PStr b => String.eqb a b
  | _, _ => false
  end.

(** ** class BankAccount *)

(** The [try] block of [deposit]. *)
Definition deposit_try (amount : pyval) : py unit :=
  c ← py_le amount (PFloat 0%float);
  (if c : bool then raise (ValueError "Deposit amount must be positive.") else ret tt);;
  a ← get_self;
  b ← py_add (balance a) amount;
  assign_balance b;;
  print (Deposited amount).

Definition deposit (amount : pyval) : py unit :=
  try_except_ValueError (deposit_try amount) (fun e => print (Error e)).

(** The [try] block of [withdraw]. *)
Definition withdraw_try (amount : pyval) : py unit :=
  c ← py_le amount (PFloat 0%float);
  (if c : bool then raise (ValueError "Withdrawal amount must be positive.") else ret tt);;
  a ← get_self;
  c' ← py_gt amount (balance a);
  (if c' : bool then raise (ValueError "Insufficient balance!") else ret tt);;
  a ← get_self;
  b ← py_sub (balance a) amount;
  assign_balance b;;
  print (Withdrawn amount).

Definition withdraw (amount : pyval) : py unit :=
  try_except_ValueError (withdraw_try amount) (fun e => print (Error e)).

Definition get_balance : py pyval :=
  a ← get_self; ret (balance a).

(** ** class SavingsAccount(BankAccount) *)

(** [self.interest_rate]: an attribute of the subclass only. *)
Definition get_interest_rate : py pyval :=
  a ← get_self;
  match a with
  | SavingsAccount _ _ _ r => ret r
  | BankAccount _ _ _ => raise AttributeError
  end.

(** A plain [BankAccount] has no method [calculate_interest] either. *)
Definition calculate_interest : py pyval :=
  b ← get_balance;
  r ← get_interest_rate;
  interest ← py_mul b r;
  print (Annual_interest r interest);;
  ret interest.

(** ** File handling *)

(** [d.get(key, default)] *)
Definition dict_get (d : json) (key : string) (dflt : pyval) : py pyval :=
  match d with
  | JObject data => ret (default dflt (data !! key))
  | JValue _ => raise AttributeError
  end.

(** [d[key]] *)
Definition dict_item (d : json) (key : string) : py pyval :=
  match d with
  | JObject data =>
      match data !! key with
      | Some v => ret v
      | None => raise (KeyError key)
      end
  | JValue _ => raise TypeError
  end.

Section Persistence.

(** The file that a name names, or the exception that [open] raises for
    the name: part of the file system, not of this program. *)
Variable locate : string -> exn + string.

(** [repr] of a float, as an f-string formats it: part of the Python
    runtime, not of this program. *)
Variable float_repr : float -> string.

(** [os.path.exists(filename)]: false for a name that names no file. *)
Definition os_path_exists (filename : string) : py bool :=
  fun s =>
    match locate filename with
    | inr f => (Return (bool_decide (is_Some (files s !! f))), s)
    | inl _ => (Return false, s)
    end.

(** [with open(filename, "r") as file: json.load(file)] *)
Definition json_load (filename : string) : py json :=
  fun s =>
    match locate filename with
    | inr f =>
        match files s !! f with
        | Some d => (Return d, s)
        | None => (Raise FileNotFoundError, s)
        end
    | inl e => (Raise e, s)
    end.

(** [with open(filename, "w") as file: json.dump(data, file, indent=4)]:
    [open] raises before anything is written. *)
Definition json_dump (data : gmap string pyval) (filename : string) : py unit :=
  fun s =>
    match locate filename with
    | inr f => (Return tt, State (self s) (stdout s) (<[f := JObject data]> (files s)))
    | inl e => (Raise e, s)
    end.

(** [f"{v}"] *)
Definition py_str (v : pyval) : string :=
  match v with
  | PNone => "None"
  | PFloat x => float_repr x
  | PStr s => s
  end.

(** [f"{account_number}.json"] *)
Definition filename (account_number : pyval) : string :=
  py_str account_number ++ ".json".

Definition BankAccount_save_to_file : py unit :=
  a ← get_self;
  let data : gmap string pyval :=
    list_to_map [("type", PStr "BankAccount");
                 ("account_number", account_number a);
                 ("name", name a);
                 ("balance", balance a)] in
  json_dump data (filename (account_number a));;
  print Account_saved.

Definition SavingsAccount_save_to_file : py unit :=
  a ← get_self;
  b ← get_balance;
  r ← get_interest_rate;
  let data : gmap string pyval :=
    list_to_map [("type", PStr "SavingsAccount");
                 ("account_number", account_number a);
                 ("name", name a);
                 ("balance", b);
                 ("interest_rate", r)] in
  json_dump data (filename (account_number a));;
  print Savings_saved.

(** [self.save_to_file()]: the subclass overrides the method. *)
Definition save_to_file : py unit :=
  a ← get_self;
  if isinstance_SavingsAccount a
  then SavingsAccount_save_to_file
  else BankAccount_save_to_file.

(** [BankAccount.load_from_file(account_number)], a static method: the
    object it returns is new, [None] is [None]. *)
Definition load_from_file (account_number : pyval) : py (option account) :=
  found ← os_path_exists (filename account_number);
  if found : bool then
    data ← json_load (filename account_number);
    t ← dict_get data "type" PNone;
    if py_eq t (PStr "SavingsAccount") then
      n ← dict_item data "account_number";
      nm ← dict_item data "name";
      b ← dict_item data "balance";
      r ← dict_get data "interest_rate" (PFloat 0.05%float);
      ret (Some (SavingsAccount n nm b r))
    else
      n ← dict_item data "account_number";
      nm ← dict_item data "name";
      b ← dict_item data "balance";
      ret (Some (BankAccount n nm b))
  else
    print Account_not_found;;
    ret None.

End Persistence.

(** ** Vocabulary of the statements *)

(** The document stored for an account number: the content of the file that
    [f"{account_number}.json"] names, when it names one and the file exists. *)
Definition stored (locate : string -> exn + string) (float_repr : float -> string)
    (files : gmap string json) (account_number : pyval) : option json :=
  match locate (filename float_repr account_number) with
  | inr f => files !! f
  | inl _ => None
  end.

(** The state once [print(l)] has run. *)
Definition printed (l : line) (s : state) : state :=
  State (self s) (stdout s ++ [l]) (files s).

(** The state once [self.__balance = b] has run. *)
Definition with_balance (b : pyval) (s : state) : state :=
  State (set_balance b (self s)) (stdout s) (files s).

(** [balance >= 0]: the balance is a float and zero is not above it.  A
    NaN balance does not satisfy it. *)
Definition balance_nonneg (a : account) : bool :=
  match balance a with
  | PFloat b => (0 <=? b)%float
  | _ => false
  end.

(** The sign of a float that is not NaN, in the specification of binary64. *)
Definition has_sign (s : bool) (f : spec_float) : Prop :=
  match f with
  | S754_zero s' | S754_infinity s' | S754_finite s' _ _ => s' = s
  | S754_nan => False
  end.

Definition SFnonneg (f : spec_float) : bool := SFleb (S754_zero false) f.

Definition SFpos (f : spec_float) : bool := SFltb (S754_zero false) f.

(** ** Examples

    The accounts and records on which the statements below are tried. *)

Definition asha : account := BankAccount (PStr "1001") (PStr "Asha") (PFloat 100).

Definition ravi : account :=
  SavingsAccount (PStr "S1") (PStr "Ravi") (PFloat 200) (PFloat 0.05).

(** An account made with a negative initial deposit. *)
Definition overdrawn : account := BankAccount (PStr "1002") (PStr "Omar") (PFloat (-50)).

(** A state with nothing printed and no file. *)
Definition fresh (a : account) : state := State a [] ∅.

(** A state whose only file is [f], holding [d]. *)
Definition with_file (f : string) (d : json) (a : account) : state :=
  State a [] {[ f := d ]}.

(** A working directory without subdirectories: a leading "./" apart, a
    name with a "/" in it names no file, and any other name names the file
    of that name. *)
Fixpoint has_slash (x : string) : bool :=
  match x with
  | EmptyString => false
  | String c rest => String.eqb (String c EmptyString) "/" || has_slash rest
  end.

Definition working_directory (name : string) : exn + string :=
  let name :=
    if String.prefix "./" name
    then String.substring 2 (String.length name - 2) name
    else name in
  if has_slash name then inl FileNotFoundError else inr name.

(** An account whose balance is 10^16, where the next float is 2 away. *)
Definition mira : account := BankAccount (PStr "1005") (PStr "Mira") (PFloat 1e16).

(** No example has a float for account number: any function can stand for
    [repr] there. *)
Definition repr_unused : float -> string := fun _ => "".

(** Records written by hand: an unknown "type", no "type" at all, a savings
    record without "interest_rate", and a record without "balance". *)
Definition record_unknown_type : gmap string pyval :=
  list_to_map [("type", PStr "CurrentAccount"); ("account_number", PStr "1003");
               ("name", PStr "Lena"); ("balance", PFloat 10)].

Definition record_no_type : gmap string pyval :=
  list_to_map [("account_number", PStr "1003"); ("name", PStr "Lena");
               ("balance", PFloat 10)].

Definition record_savings_no_rate : gmap string pyval :=
  list_to_map [("type", PStr "SavingsAccount"); ("account_number", PStr "1003");
               ("name", PStr "Lena"); ("balance", PFloat 10)].

Definition record_savings_rate : gmap string pyval :=
  list_to_map [("type", PStr "SavingsAccount"); ("account_number", PStr "1003");
               ("name", PStr "Lena"); ("balance", PFloat 10);
               ("interest_rate", PFloat 0.25)].

Definition record_no_balance : gmap string pyval :=
  list_to_map [("type", PStr "BankAccount"); ("account_number", PStr "1003");
               ("name", PStr "Lena")].

(** ** The console: [display_account_info] and the menu's functions

    These read lines from standard input and print lines of their own, so
    they run in a session: the lines still to be read, the lines printed so
    far (those of the methods among them) and the files.  [float(...)] of a
    string belongs to the Python runtime and is taken as a parameter. *)

Module Console.

(** The prompts of [input]. *)
Inductive prompt : Type :=
| Ask_new_account_number                (* "Enter Account Number: " *)
| Ask_holder_name                       (* "Enter Account Holder Name: " *)
| Ask_initial_deposit                   (* "Enter Initial Deposit Amount: ₹" *)
| Ask_account_type                      (* "Choose Account Type (1 or 2): " *)
| Ask_account_number                    (* "\nEnter Account Number: " *)
| Ask_deposit_amount                    (* "Enter amount to deposit: ₹" *)
| Ask_withdraw_amount                   (* "Enter amount to withdraw: ₹" *)
| Ask_choice.                           (* "Enter your choice (1-6): " *)

(** What appears on the console. *)
Inductive output : Type :=
| Method (l : line)                     (* a line printed by a method above *)
| Asked (p : prompt)                    (* the prompt of an [input] *)
| Create_banner                         (* "\n=== Create New Account ===" *)
| Account_types                         (* "\n1. Normal Bank Account\n2. Savings Account (5% Interest)" *)
| Created (name : string)               (* "Account for {name} created successfully!" *)
| Not_numeric                           (* "Please enter a valid numeric amount!" *)
| Savings_only                          (* "Interest calculation is only available for Savings Accounts!" *)
| Details_header                        (* "\n===== Account Details =====" *)
| Details_number (n : pyval)            (* "Account Number: {n}" *)
| Details_holder (nm : pyval)           (* "Account Holder: {nm}" *)
| Details_balance (b : float)           (* "Current Balance: ₹{b:.2f}" *)
| Details_footer                        (* "===========================\n" *)
| Menu                                  (* the six choices *)
| Goodbye                               (* "Thank you for using our banking system. Goodbye!" *)
| Invalid_choice.                       (* "Invalid choice! Please enter a number between 1 and 6." *)

Record session : Type := Session {
  stdin : list string;
  console : list output;
  disk : gmap string json
}.

(** [input] raises [EOFError] at the end of the input. *)
Inductive error : Type :=
| Py (e : exn)
| EOFError.

Inductive result (A : Type) : Type :=
| Ok (a : A)
| Err (e : error).
Arguments Ok {A} a.
Arguments Err {A} e.

Definition io (A : Type) : Type := session -> result A * session.

Definition io_ret {A} (a : A) : io A := fun t => (Ok a, t).

Definition fail {A} (e : error) : io A := fun t => (Err e, t).

Definition io_bind {A B} (m : io A) (k : A -> io B) : io B :=
  fun t =>
    match m t with
    | (Ok a, t') => k a t'
    | (Err e, t') => (Err e, t')
    end.

#[global] Instance io_mret : MRet io := @io_ret.
#[global] Instance io_mbind : MBind io := fun A B k m => io_bind m k.

(** [try: body / except ValueError: handler] *)
Definition try_except_ValueError {A} (body : io A) (handler : io A) : io A :=
  fun t =>
    match body t with
    | (Err (Py (ValueError _)), t') => handler t'
    | r => r
    end.

Definition say (o : output) : io unit :=
  fun t => (Ok tt, Session (stdin t) (console t ++ [o]) (disk t)).

(** [input(p)]: the prompt is written, then a line is read. *)
Definition input (p : prompt) : io string :=
  fun t =>
    match stdin t with
    | x :: rest => (Ok x, Session rest (console t ++ [Asked p]) (disk t))
    | [] => (Err EOFError, Session [] (console t ++ [Asked p]) (disk t))
    end.

(** [a.m(...)]: the method runs on the object [a] and the files of the
    session, and what it prints goes to the console.  The object as the
    method leaves it comes back with the method's value. *)
Definition call {A} (a : account) (m : py A) : io (A * account) :=
  fun t =>
    let '(r, s) := m (State a [] (disk t)) in
    let t' := Session (stdin t) (console t ++ map Method (stdout s)) (files s) in
    match r with
    | Return x => (Ok (x, self s), t')
    | Raise e => (Err (Py e), t')
    end.

(** A static method has no object: the state's one is a placeholder, which
    [load_from_file] neither reads nor changes. *)
Definition no_object : account := BankAccount PNone PNone PNone.

Definition call_static {A} (m : py A) : io A :=
  r ← call no_object m; mret (fst r).

(** [f"{v:.2f}"] *)
Definition format_2f (v : pyval) : io float :=
  match v with
  | PFloat x => mret x
  | PNone => fail (Py TypeError)
  | PStr _ => fail (Py (ValueError "Unknown format code 'f' for object of type 'str'"))
  end.

(** [BankAccount.display_account_info(self)] *)
Definition display_account_info (self : account) : io unit :=
  say Details_header;;
  say (Details_number (account_number self));;
  say (Details_holder (name self));;
  b ← format_2f (balance self);
  say (Details_balance b);;
  say Details_footer.

Section Utility_functions.

Variable locate : string -> exn + string.
Variable float_repr : float -> string.

(** [float(x)] of a string: [None] where Python raises ValueError. *)
Variable parse_float : string -> option float.

(** The message of the ValueError is not looked at by any handler. *)
Definition float_of_input (x : string) : io float :=
  match parse_float x with
  | Some v => mret v
  | None => fail (Py (ValueError "could not convert string to float"))
  end.

Definition create_account : io unit :=
  say Create_banner;;
  acc_num ← input Ask_new_account_number;
  name ← input Ask_holder_name;
  try_except_ValueError
    (x ← input Ask_initial_deposit;
     initial_deposit ← float_of_input x;
     say Account_types;;
     acc_type ← input Ask_account_type;
     let account :=
       if String.eqb acc_type "2"
       then SavingsAccount (PStr acc_num) (PStr name) (PFloat initial_deposit)
              (PFloat 0.05%float)
       else BankAccount (PStr acc_num) (PStr name) (PFloat initial_deposit) in
     call account (save_to_file locate float_repr);;
     say (Created name))
    (say Not_numeric).

Definition deposit_money : io unit :=
  acc_num ← input Ask_account_number;
  account ← call_static (load_from_file locate float_repr (PStr acc_num));
  match account with
  | Some account =>
      try_except_ValueError
        (x ← input Ask_deposit_amount;
         amount ← float_of_input x;
         r ← call account (deposit (PFloat amount));
         call (snd r) (save_to_file locate float_repr);;
         mret tt)
        (say Not_numeric)
  | None => mret tt
  end.

Definition withdraw_money : io unit :=
  acc_num ← input Ask_account_number;
  account ← call_static (load_from_file locate float_repr (PStr acc_num));
  match account with
  | Some account =>
      try_except_ValueError
        (x ← input Ask_withdraw_amount;
         amount ← float_of_input x;
         r ← call account (withdraw (PFloat amount));
         call (snd r) (save_to_file locate float_repr);;
         mret tt)
        (say Not_numeric)
  | None => mret tt
  end.

Definition check_balance : io unit :=
  acc_num ← input Ask_account_number;
  account ← call_static (load_from_file locate float_repr (PStr acc_num));
  match account with
  | Some account => display_account_info account
  | None => mret tt
  end.

(** The menu's function, not the method of the same name. *)
Definition calculate_interest : io unit :=
  acc_num ← input Ask_account_number;
  account ← call_static (load_from_file locate float_repr (PStr acc_num));
  match account with
  | Some account =>
      if isinstance_SavingsAccount account
      then call account calculate_interest;; mret tt
      else say Savings_only
  | None => say Savings_only
  end.

(** [main()]: the loop [while True], unrolled at most [fuel] times; [None]
    is returned when the fuel is spent with the loop still running, [Some]
    once [break] has left it. *)
Fixpoint main (fuel : nat) : io (option unit) :=
  match fuel with
  | O => mret None
  | S fuel =>
      say Menu;;
      choice ← input Ask_choice;
      if String.eqb choice "1" then create_account;; main fuel
      else if String.eqb choice "2" then deposit_money;; main fuel
      else if String.eqb choice "3" then withdraw_money;; main fuel
      else if String.eqb choice "4" then check_balance;; main fuel
      else if String.eqb choice "5" then calculate_interest;; main fuel
      else if String.eqb choice "6" then say Goodbye;; mret (Some tt)
      else say Invalid_choice;; main fuel
  end.

End Utility_functions.

End Console.

(** ** Vocabulary of the statements on the console *)

(** A function of the console reads its lines from the front of the input:
    what is left is a suffix of what there was. *)
Definition reads_from_front {A} (m : Console.io A) : Prop :=
  forall t, Console.stdin (snd (m t)) `suffix_of` Console.stdin t.

(** A function of the console that writes no file. *)
Definition writes_no_file {A} (m : Console.io A) : Prop :=
  forall t, Console.disk (snd (m t)) = Console.disk t.

(** A method that writes no file. *)
Definition method_writes_no_file {A} (m : py A) : Prop :=
  forall s, files (snd (m s)) = files s.

(** How the loop of [main] can end on the input [lines]: by returning, after
    the choice "6" was read and with the goodbye as the last line printed,
    or by an exception. *)
Definition loop_ended (lines : list string)
    (r : Console.result (option unit) * Console.session) : Prop :=
  fst r = Console.Ok (Some tt) /\ "6" ∈ lines /\
    last (Console.console (snd r)) = Some Console.Goodbye \/
  exists e, fst r = Console.Err e.

(** [float] on the amounts typed in the examples; Python refuses "ten". *)
Definition parse_examples (x : string) : option float :=
  if String.eqb x "100" then Some 100%float
  else if String.eqb x "30" then Some 30%float
  else if String.eqb x "-50" then Some (-50)%float
  else if String.eqb x "500" then Some 500%float
  else None.

(** A session on the input [lines], with nothing printed and the one file
    [f] holding [d]. *)
Definition session_with_file (lines : list string) (f : string) (d : json) :
    Console.session :=
  Console.Session lines [] {[ f := d ]}.

(** Asha's record, as [save_to_file] writes it. *)
Definition record_asha : gmap string pyval :=
  list_to_map [("type", PStr "BankAccount"); ("account_number", PStr "1001");
               ("name", PStr "Asha"); ("balance", PFloat 100)].

(** A record whose balance is a string. *)
Definition record_text_balance : gmap string pyval :=
  list_to_map [("type", PStr "BankAccount"); ("account_number", PStr "1003");
               ("name", PStr "Lena"); ("balance", PStr "ten")].

(** * Facts on binary64 arithmetic

    [PrimFloat]'s operations are specified by [SpecFloat]'s; what is needed
    here is the sign of a sum and of a difference. *)

Section Rounding_sign.
Local Open Scope Z_scope.

Lemma iter_pos_invariant {A} (f : A -> A) (P : A -> Prop) :
  (forall x, P x -> P (f x)) -> forall p x, P x -> P (SpecFloat.iter_pos f p x).
Proof.
  intros Hf p. induction p as [p IH|p IH|]; intros x Hx; simpl; auto.
Qed.

Lemma shr_1_nonneg mrs : 0 <= shr_m mrs -> 0 <= shr_m (shr_1 mrs).
Proof.
  destruct mrs as [m r s]. simpl.
  destruct m as [|[p|p|]|[p|p|]]; simpl; lia.
Qed.

Lemma shr_nonneg mrs e n : 0 <= shr_m mrs -> 0 <= shr_m (fst (shr mrs e n)).
Proof.
  intros H. unfold shr. destruct n; simpl; auto.
  apply (iter_pos_invariant shr_1 (fun r => 0 <= shr_m r)); auto using shr_1_nonneg.
Qed.

Lemma shr_fexp_nonneg m e l : 0 <= m -> 0 <= shr_m (fst (shr_fexp prec emax m e l)).
Proof.
  intros H. unfold shr_fexp. apply shr_nonneg.
  destruct l as [|[]]; simpl; auto.
Qed.

Lemma round_nearest_even_nonneg m l : 0 <= m -> 0 <= round_nearest_even m l.
Proof.
  intros H. unfold round_nearest_even.
  destruct l as [|[]]; try destruct (Z.even m); lia.
Qed.

(** Rounding a mantissa that is not negative gives the sign asked for,
    never NaN. *)
Lemma binary_round_aux_sign sx mx ex lx :
  0 <= mx -> has_sign sx (binary_round_aux prec emax sx mx ex lx).
Proof.
  intros H. unfold binary_round_aux.
  pose proof (shr_fexp_nonneg mx ex lx H) as H1.
  destruct (shr_fexp prec emax mx ex lx) as [mrs' e'] eqn:E1. simpl in H1.
  pose proof (shr_fexp_nonneg _ e' loc_Exact
                (round_nearest_even_nonneg _ (loc_of_shr_record mrs') H1)) as H2.
  destruct (shr_fexp prec emax (round_nearest_even (shr_m mrs') (loc_of_shr_record mrs')) e' loc_Exact)
    as [mrs'' e''] eqn:E2. simpl in H2.
  destruct (shr_m mrs'') as [|m|m]; simpl; auto; try lia.
  destruct (_ <=? _); exact eq_refl.
Qed.

Lemma binary_round_sign sx mx ex : has_sign sx (binary_round prec emax sx mx ex).
Proof.
  unfold binary_round.
  destruct (shl_align mx ex _) as [mz ez].
  apply binary_round_aux_sign. lia.
Qed.

Lemma binary_normalize_sign m e :
  0 <= m -> has_sign false (binary_normalize prec emax m e false).
Proof.
  intros H. destruct m; simpl; try lia; auto using binary_round_sign.
Qed.

End Rounding_sign.

Section Aligned_mantissas.
Local Open Scope Z_scope.

Lemma digits2_pos_bounds m :
  2 ^ (Zpos (digits2_pos m) - 1) <= Zpos m < 2 ^ Zpos (digits2_pos m).
Proof.
  induction m as [m IH|m IH|]; simpl digits2_pos.
  - rewrite Pos2Z.inj_succ, Z.pow_succ_r by lia.
    replace (Z.succ (Zpos (digits2_pos m)) - 1) with (Z.succ (Zpos (digits2_pos m) - 1)) by lia.
    rewrite Z.pow_succ_r by lia. lia.
  - rewrite Pos2Z.inj_succ, Z.pow_succ_r by lia.
    replace (Z.succ (Zpos (digits2_pos m)) - 1) with (Z.succ (Zpos (digits2_pos m) - 1)) by lia.
    rewrite Z.pow_succ_r by lia. lia.
  - simpl. lia.
Qed.

Lemma iter_xO_double m d : 2 * Zpos m <= Zpos (Pos.iter xO m d).
Proof.
  induction d as [|d IH] using Pos.peano_ind.
  - simpl. lia.
  - rewrite Pos.iter_succ. lia.
Qed.

(** A canonical mantissa has at most [prec] digits, and exactly [prec]
    above the smallest exponent. *)
Lemma canonical_exponent m e :
  canonical_mantissa prec emax m e = true ->
  SpecFloat.emin prec emax <= e /\ Zpos (digits2_pos m) <= prec /\
  (SpecFloat.emin prec emax < e -> Zpos (digits2_pos m) = prec).
Proof.
  unfold canonical_mantissa, fexp. intros H%Z.eqb_eq. lia.
Qed.

(** The mantissas of two valid positive numbers y <= x, brought to the
    smaller of the two exponents: the one of y is not above the one of x. *)
Lemma aligned_mantissas_le mx ex my ey :
  bounded prec emax mx ex = true ->
  bounded prec emax my ey = true ->
  SFleb (S754_finite false my ey) (S754_finite false mx ex) = true ->
  Zpos (fst (shl_align my ey (Z.min ex ey))) <= Zpos (fst (shl_align mx ex (Z.min ex ey))).
Proof.
  unfold bounded. intros [Hx _]%andb_prop [Hy _]%andb_prop.
  apply canonical_exponent in Hx as (Hx1 & Hx2 & Hx3).
  apply canonical_exponent in Hy as (Hy1 & Hy2 & Hy3).
  unfold SFleb, SFcompare.
  destruct (Z.compare_spec ey ex) as [->|Hlt|Hgt].
  - rewrite Z.min_id. unfold shl_align. rewrite Z.sub_diag. simpl.
    intros H. destruct (Pos.compare_cont Eq my mx) eqn:E; try discriminate.
    + apply Pos.compare_eq in E. lia.
    + assert (Hlt : (my < mx)%positive) by exact E. lia.
  - intros _. rewrite Z.min_r by lia.
    unfold shl_align. rewrite Z.sub_diag. simpl fst.
    destruct (ey - ex) as [|d|d] eqn:Ed; try lia. simpl fst.
    pose proof (iter_xO_double mx d).
    pose proof (digits2_pos_bounds mx) as [Hmx _].
    pose proof (digits2_pos_bounds my) as [_ Hmy].
    rewrite Hx3 in Hmx by lia.
    assert (2 ^ Zpos (digits2_pos my) <= 2 ^ prec) by (apply Z.pow_le_mono_r; lia).
    assert (2 ^ prec = 2 * 2 ^ (prec - 1)) by reflexivity.
    lia.
  - discriminate.
Qed.

End Aligned_mantissas.

Section Sign_of_sum_and_difference.

Lemma has_sign_nonneg f : has_sign false f -> SFnonneg f = true.
Proof.
  destruct f as [s|s| |s m e]; simpl; try contradiction; intros ->; reflexivity.
Qed.

Lemma SFadd_nonneg x y :
  SFnonneg x = true -> SFpos y = true -> SFnonneg (SF64add x y) = true.
Proof.
  destruct x as [sx|[|]| |[|] mx ex]; try discriminate;
    destruct y as [sy|[|]| |[|] my ey]; try discriminate; intros _ _; try reflexivity.
  unfold SF64add, SFadd. apply has_sign_nonneg, binary_normalize_sign.
  simpl cond_Zopp. lia.
Qed.

Lemma SFsub_nonneg x y :
  valid_binary x = true -> valid_binary y = true ->
  SFpos y = true -> SFleb y x = true ->
  y <> S754_infinity false ->
  SFnonneg (SF64sub x y) = true.
Proof.
  destruct x as [sx|[|]| |[|] mx ex];
    destruct y as [sy|[|]| |[|] my ey]; try discriminate; intros Vx Vy _ Hle Hinf;
    try reflexivity; try congruence.
  unfold SF64sub, SFsub. apply has_sign_nonneg, binary_normalize_sign.
  simpl cond_Zopp. pose proof (aligned_mantissas_le mx ex my ey Vx Vy Hle). lia.
Qed.

Lemma SFpos_not_le0 y : SFpos y = true -> SFleb y (S754_zero false) = false.
Proof. destruct y as [s|[|]| |[|] m e]; try discriminate; reflexivity. Qed.

Lemma SFnot_le0_pos y :
  SFleb y (S754_zero false) = false -> y <> S754_nan -> SFpos y = true.
Proof.
  destruct y as [s|[|]| |[|] m e]; try discriminate; try reflexivity; congruence.
Qed.

Lemma SFnot_lt_le x y :
  SFnonneg x = true -> SFpos y = true -> SFltb x y = false -> SFleb y x = true.
Proof.
  destruct x as [sx|[|]| |[|] mx ex]; try discriminate;
    destruct y as [sy|[|]| |[|] my ey]; try discriminate; intros _ _; try reflexivity.
  unfold SFltb, SFleb, SFcompare.
  rewrite (Z.compare_antisym ex ey).
  destruct (ex ?= ey)%Z; simpl; try discriminate; try reflexivity.
  rewrite !Pos.compare_cont_spec, (Pos.compare_antisym mx my).
  destruct (mx ?= my)%positive; simpl; try discriminate; reflexivity.
Qed.

Local Open Scope float_scope.

Lemma Prim2SF_zero : Prim2SF 0 = S754_zero false.
Proof. reflexivity. Qed.

Lemma is_nan_Prim2SF y : is_nan y = false -> Prim2SF y <> S754_nan.
Proof.
  unfold is_nan. rewrite FloatAxioms.eqb_spec. intros H E. rewrite E in H. discriminate.
Qed.

(** A positive amount is not [<= 0]. *)
Lemma float_pos_not_le0 y : (0 <? y) = true -> (y <=? 0) = false.
Proof.
  rewrite FloatAxioms.ltb_spec, FloatAxioms.leb_spec, Prim2SF_zero. apply SFpos_not_le0.
Qed.

(** An amount that is not [<= 0] is positive, or NaN. *)
Lemma float_not_le0_pos y : (y <=? 0) = false -> is_nan y = false -> (0 <? y) = true.
Proof.
  rewrite FloatAxioms.ltb_spec, FloatAxioms.leb_spec, Prim2SF_zero. intros H N.
  apply SFnot_le0_pos; auto using is_nan_Prim2SF.
Qed.

Lemma float_add_nonneg x y :
  (0 <=? x) = true -> (0 <? y) = true -> (0 <=? x + y) = true.
Proof.
  rewrite FloatAxioms.ltb_spec, !FloatAxioms.leb_spec, FloatAxioms.add_spec, Prim2SF_zero. apply SFadd_nonneg.
Qed.

Lemma float_sub_nonneg x y :
  (0 <=? x) = true -> (0 <? y) = true -> (x <? y) = false -> y <> infinity ->
  (0 <=? x - y) = true.
Proof.
  rewrite !FloatAxioms.ltb_spec, !FloatAxioms.leb_spec, FloatAxioms.sub_spec, Prim2SF_zero. intros Hx Hy Hlt Hinf.
  apply SFsub_nonneg; auto using Prim2SF_valid, SFnot_lt_le.
  intros E. apply Hinf, Prim2SF_inj. rewrite E. reflexivity.
Qed.

End Sign_of_sum_and_difference.

(** * Running the methods *)

Ltac py_unfold :=
  unfold deposit, withdraw, deposit_try, withdraw_try, calculate_interest,
    get_balance, get_interest_rate, try_except_ValueError, printed, with_balance,
    mbind, py_bind, bind, py_le, py_gt, py_add, py_sub, py_mul,
    get_self, assign_balance, print, ret, raise in *; simpl in *.

Section Deposit_and_withdraw.
Local Open Scope float_scope.

Variable s : state.

Lemma deposit_try_invalid d :
  (d <=? 0) = true ->
  deposit_try (PFloat d) s = (Raise (ValueError "Deposit amount must be positive."), s).
Proof. intros H. py_unfold. rewrite H. reflexivity. Qed.

Lemma deposit_try_valid d b :
  balance (self s) = PFloat b -> (d <=? 0) = false ->
  deposit_try (PFloat d) s =
    (Return tt, printed (Deposited (PFloat d)) (with_balance (PFloat (b + d)) s)).
Proof. intros Hb H. py_unfold. rewrite H, Hb. reflexivity. Qed.

Lemma withdraw_try_invalid w :
  (w <=? 0) = true ->
  withdraw_try (PFloat w) s = (Raise (ValueError "Withdrawal amount must be positive."), s).
Proof. intros H. py_unfold. rewrite H. reflexivity. Qed.

Lemma withdraw_try_insufficient w b :
  balance (self s) = PFloat b -> (w <=? 0) = false -> (b <? w) = true ->
  withdraw_try (PFloat w) s = (Raise (ValueError "Insufficient balance!"), s).
Proof. intros Hb H H'. py_unfold. rewrite H, Hb. simpl. rewrite H'. reflexivity. Qed.

Lemma withdraw_try_valid w b :
  balance (self s) = PFloat b -> (w <=? 0) = false -> (b <? w) = false ->
  withdraw_try (PFloat w) s =
    (Return tt, printed (Withdrawn (PFloat w)) (with_balance (PFloat (b - w)) s)).
Proof.
  intros Hb H H'. py_unfold. rewrite H, Hb. simpl. rewrite H'. simpl.
  rewrite Hb. reflexivity.
Qed.

(** What the [except] clause makes of the [try] block. *)
Lemma deposit_caught amount msg s' :
  deposit_try amount s = (Raise (ValueError msg), s') ->
  deposit amount s = (Return tt, printed (Error msg) s').
Proof. unfold deposit, try_except_ValueError. intros ->. reflexivity. Qed.

Lemma deposit_returned amount s' :
  deposit_try amount s = (Return tt, s') -> deposit amount s = (Return tt, s').
Proof. unfold deposit, try_except_ValueError. intros ->. reflexivity. Qed.

Lemma withdraw_caught amount msg s' :
  withdraw_try amount s = (Raise (ValueError msg), s') ->
  withdraw amount s = (Return tt, printed (Error msg) s').
Proof. unfold withdraw, try_except_ValueError. intros ->. reflexivity. Qed.

Lemma withdraw_returned amount s' :
  withdraw_try amount s = (Return tt, s') -> withdraw amount s = (Return tt, s').
Proof. unfold withdraw, try_except_ValueError. intros ->. reflexivity. Qed.

(** An exception leaves the [try] block before anything is assigned or
    printed, whatever the amount and the balance are. *)
Lemma deposit_try_raise amount e s' :
  deposit_try amount s = (Raise e, s') -> s' = s.
Proof.
  py_unfold. destruct amount as [|d|a]; simpl; try congruence.
  destruct (d <=? 0); simpl; try congruence.
  destruct (balance (self s)); simpl; congruence.
Qed.

Lemma withdraw_try_raise amount e s' :
  withdraw_try amount s = (Raise e, s') -> s' = s.
Proof.
  py_unfold. destruct amount as [|w|a]; simpl; try congruence.
  destruct (w <=? 0); simpl; try congruence.
  destruct (balance (self s)) as [|b|b] eqn:Hb; simpl; try congruence.
  destruct (b <? w); simpl; try congruence.
  rewrite Hb. simpl. congruence.
Qed.

End Deposit_and_withdraw.

Section Stored.

Variable locate : string -> exn + string.
Variable float_repr : float -> string.

(** The file of a document that is stored. *)
Lemma stored_located fs id d :
  stored locate float_repr fs id = Some d ->
  exists f, locate (filename float_repr id) = inr f /\ fs !! f = Some d.
Proof.
  unfold stored. destruct (locate _) as [e|f]; [discriminate|]. eauto.
Qed.

Lemma stored_insert_eq fs id f d :
  locate (filename float_repr id) = inr f ->
  stored locate float_repr (<[f := d]> fs) id = Some d.
Proof. unfold stored. intros ->. apply lookup_insert_eq. Qed.

Lemma stored_insert_ne fs id f d :
  locate (filename float_repr id) <> inr f ->
  stored locate float_repr (<[f := d]> fs) id = stored locate float_repr fs id.
Proof.
  unfold stored. destruct (locate _) as [e|f'] eqn:E; [reflexivity|].
  intros Hne. apply lookup_insert_ne. congruence.
Qed.

End Stored.

Ltac load_unfold :=
  unfold load_from_file, os_path_exists, json_load, dict_get, dict_item,
    mbind, py_bind, bind, ret, raise, print, printed; simpl.

(** Opening a file that exists. *)
Ltac load_found H :=
  let f := fresh "f" in
  let Hloc := fresh "Hloc" in
  let Hf := fresh "Hf" in
  destruct (stored_located _ _ _ _ _ H) as (f & Hloc & Hf);
  load_unfold; rewrite Hloc; simpl;
  rewrite Hf, bool_decide_true by (eexists; reflexivity);
  simpl; rewrite ?Hf; simpl.

Section Load_and_save.

Variable locate : string -> exn + string.
Variable float_repr : float -> string.
Variable s : state.

Lemma py_eq_str t x : py_eq t (PStr x) = true <-> t = PStr x.
Proof.
  destruct t as [|f|y]; simpl; try (split; congruence).
  rewrite String.eqb_eq. split; congruence.
Qed.

Lemma py_eq_type_other (data : gmap string pyval) :
  data !! "type" <> Some (PStr "SavingsAccount") ->
  py_eq (default PNone (data !! "type")) (PStr "SavingsAccount") = false.
Proof.
  intros Ht. destruct (py_eq _ _) eqn:E; [|reflexivity].
  apply py_eq_str in E. destruct (data !! "type"); simpl in E; congruence.
Qed.

Lemma load_from_file_missing id :
  stored locate float_repr (files s) id = None ->
  load_from_file locate float_repr id s = (Return None, printed Account_not_found s).
Proof.
  unfold stored. intros H.
  destruct (locate (filename float_repr id)) as [e|f] eqn:Hloc;
    load_unfold; rewrite Hloc; [reflexivity|].
  rewrite H. reflexivity.
Qed.

Lemma load_from_file_not_a_dict id v :
  stored locate float_repr (files s) id = Some (JValue v) ->
  load_from_file locate float_repr id s = (Raise AttributeError, s).
Proof. intros H. load_found H. reflexivity. Qed.

Lemma load_from_file_plain id (data : gmap string pyval) n nm b :
  stored locate float_repr (files s) id = Some (JObject data) ->
  data !! "type" <> Some (PStr "SavingsAccount") ->
  data !! "account_number" = Some n -> data !! "name" = Some nm ->
  data !! "balance" = Some b ->
  load_from_file locate float_repr id s = (Return (Some (BankAccount n nm b)), s).
Proof.
  intros H Ht Hn Hnm Hb. load_found H.
  rewrite (py_eq_type_other data Ht), Hn, Hnm, Hb. reflexivity.
Qed.

Lemma load_from_file_savings id (data : gmap string pyval) n nm b :
  stored locate float_repr (files s) id = Some (JObject data) ->
  data !! "type" = Some (PStr "SavingsAccount") ->
  data !! "account_number" = Some n -> data !! "name" = Some nm ->
  data !! "balance" = Some b ->
  load_from_file locate float_repr id s =
    (Return (Some (SavingsAccount n nm b
                     (default (PFloat 0.05%float) (data !! "interest_rate")))), s).
Proof.
  intros H Ht Hn Hnm Hb. load_found H.
  rewrite Ht, Hn, Hnm, Hb. reflexivity.
Qed.

(** The first of the three keys that the record lacks, in the order in
    which the constructor's arguments are evaluated. *)
Lemma load_from_file_KeyError id (data : gmap string pyval) :
  stored locate float_repr (files s) id = Some (JObject data) ->
  data !! "account_number" = None \/ data !! "name" = None \/ data !! "balance" = None ->
  exists key,
    load_from_file locate float_repr id s = (Raise (KeyError key), s) /\
    data !! key = None /\
    (key = "account_number" \/ key = "name" \/ key = "balance").
Proof.
  intros H Hkeys. load_found H.
  destruct (data !! "account_number") as [n|] eqn:Hn.
  - destruct (data !! "name") as [nm|] eqn:Hnm.
    + destruct (data !! "balance") as [b|] eqn:Hb.
      * destruct Hkeys as [|[|]]; discriminate.
      * exists "balance". destruct (py_eq _ _); simpl; auto.
    + exists "name". destruct (py_eq _ _); simpl; auto.
  - exists "account_number". destruct (py_eq _ _); simpl; auto.
Qed.

(** What [save_to_file] does: [open] raises, or one file is written and one
    line printed. *)
Lemma save_to_file_plain n nm b :
  self s = BankAccount n nm b ->
  save_to_file locate float_repr s =
    match locate (filename float_repr n) with
    | inr f =>
        (Return tt,
         printed Account_saved
           (State (self s) (stdout s)
              (<[f := JObject (list_to_map [("type", PStr "BankAccount");
                                            ("account_number", n);
                                            ("name", nm); ("balance", b)])]> (files s))))
    | inl e => (Raise e, s)
    end.
Proof.
  intros H. unfold save_to_file, BankAccount_save_to_file, json_dump.
  py_unfold. rewrite H. simpl. rewrite ?H. simpl.
  destruct (locate _); [destruct s|]; reflexivity.
Qed.

Lemma save_to_file_savings n nm b r :
  self s = SavingsAccount n nm b r ->
  save_to_file locate float_repr s =
    match locate (filename float_repr n) with
    | inr f =>
        (Return tt,
         printed Savings_saved
           (State (self s) (stdout s)
              (<[f := JObject (list_to_map [("type", PStr "SavingsAccount");
                                            ("account_number", n);
                                            ("name", nm); ("balance", b);
                                            ("interest_rate", r)])]> (files s))))
    | inl e => (Raise e, s)
    end.
Proof.
  intros H. unfold save_to_file, SavingsAccount_save_to_file, json_dump.
  py_unfold. rewrite H. simpl. rewrite ?H. simpl.
  destruct (locate _); [destruct s|]; reflexivity.
Qed.

End Load_and_save.

(** * The account entity (specification, section 4.1) *)

Section Account_entity.
Local Open Scope float_scope.

(** C1. [withdraw(amount)]: an amount [<= 0] is refused with the ValueError
    "Withdrawal amount must be positive." (InvalidAmount), whatever the
    balance is, so this check comes first; otherwise an amount above the
    balance is refused with the ValueError "Insufficient balance!"
    (InsufficientFunds); otherwise the balance becomes the float
    [balance - amount], the difference rounded to binary64, and the account
    number, the name, the class and the interest rate stay, the line of the
    withdrawal is printed and no file changes.  A refusal is the exception
    of the [try] block, which [withdraw] prints as "Error: ...". *)
Theorem withdraw_contract (s : state) (w : float) :
  ((w <=? 0) = true ->
     withdraw_try (PFloat w) s =
       (Raise (ValueError "Withdrawal amount must be positive."), s) /\
     withdraw (PFloat w) s =
       (Return tt, printed (Error "Withdrawal amount must be positive.") s)) /\
  (forall b, balance (self s) = PFloat b -> (w <=? 0) = false ->
     ((b <? w) = true ->
        withdraw_try (PFloat w) s = (Raise (ValueError "Insufficient balance!"), s) /\
        withdraw (PFloat w) s = (Return tt, printed (Error "Insufficient balance!") s)) /\
     ((b <? w) = false ->
        withdraw (PFloat w) s =
          (Return tt,
           State
             (match self s with
              | BankAccount n nm _ => BankAccount n nm (PFloat (b - w))
              | SavingsAccount n nm _ r => SavingsAccount n nm (PFloat (b - w)) r
              end)
             (stdout s ++ [Withdrawn (PFloat w)])%list (files s)) /\
        balance (self (snd (withdraw (PFloat w) s))) = PFloat (b - w))).
Proof.
  split.
  - intros H. split; [|apply withdraw_caught]; apply withdraw_try_invalid, H.
  - intros b Hb H. split; intros H'.
    + split; [|apply withdraw_caught]; apply (withdraw_try_insufficient s w b); assumption.
    + rewrite (withdraw_returned s _ _ (withdraw_try_valid s w b Hb H H')).
      unfold printed, with_balance, set_balance. simpl.
      destruct (self s); split; reflexivity.
Qed.

(** C2. [deposit(amount)]: an amount [<= 0] is refused with the ValueError
    "Deposit amount must be positive." (InvalidAmount); otherwise the
    balance becomes the float [balance + amount], the sum rounded to
    binary64, and the account number, the name, the class and the interest
    rate stay, the line of the deposit is printed and no file changes; a
    positive amount is never refused: the [try] block itself returns. *)
Theorem deposit_contract (s : state) (d : float) :
  ((d <=? 0) = true ->
     deposit_try (PFloat d) s =
       (Raise (ValueError "Deposit amount must be positive."), s) /\
     deposit (PFloat d) s =
       (Return tt, printed (Error "Deposit amount must be positive.") s)) /\
  (forall b, balance (self s) = PFloat b ->
     ((d <=? 0) = false ->
        deposit (PFloat d) s =
          (Return tt,
           State
             (match self s with
              | BankAccount n nm _ => BankAccount n nm (PFloat (b + d))
              | SavingsAccount n nm _ r => SavingsAccount n nm (PFloat (b + d)) r
              end)
             (stdout s ++ [Deposited (PFloat d)])%list (files s)) /\
        balance (self (snd (deposit (PFloat d) s))) = PFloat (b + d)) /\
     ((0 <? d) = true ->
        deposit_try (PFloat d) s =
          (Return tt,
           State
             (match self s with
              | BankAccount n nm _ => BankAccount n nm (PFloat (b + d))
              | SavingsAccount n nm _ r => SavingsAccount n nm (PFloat (b + d)) r
              end)
             (stdout s ++ [Deposited (PFloat d)])%list (files s)) /\
        deposit (PFloat d) s = deposit_try (PFloat d) s)).
Proof.
  split.
  - intros H. split; [|apply deposit_caught]; apply deposit_try_invalid, H.
  - intros b Hb. split.
    + intros H. rewrite (deposit_returned s _ _ (deposit_try_valid s d b Hb H)).
      unfold printed, with_balance, set_balance. simpl.
      destruct (self s); split; reflexivity.
    + intros H%float_pos_not_le0.
      rewrite (deposit_returned s _ _ (deposit_try_valid s d b Hb H)).
      rewrite (deposit_try_valid s d b Hb H).
      unfold printed, with_balance, set_balance. simpl.
      destruct (self s); repeat split; reflexivity.
Qed.

(** C3. A call that fails leaves the account as it was: [deposit] and
    [withdraw] of an amount [<= 0], and [withdraw] of an amount above the
    balance, change neither the object nor any file; more generally,
    whenever the [try] block of either method raises, it does so in the
    state in which the method was called. *)
Theorem failure_leaves_account (s : state) :
  (forall w, (w <=? 0) = true ->
     self (snd (deposit (PFloat w) s)) = self s /\
     files (snd (deposit (PFloat w) s)) = files s /\
     self (snd (withdraw (PFloat w) s)) = self s /\
     files (snd (withdraw (PFloat w) s)) = files s) /\
  (forall w b, balance (self s) = PFloat b -> (b <? w) = true ->
     self (snd (withdraw (PFloat w) s)) = self s /\
     balance (self (snd (withdraw (PFloat w) s))) = PFloat b /\
     files (snd (withdraw (PFloat w) s)) = files s) /\
  (forall amount e s',
     deposit_try amount s = (Raise e, s') \/ withdraw_try amount s = (Raise e, s') ->
     s' = s).
Proof.
  split; [|split].
  - intros w H.
    rewrite (deposit_caught s _ _ _ (deposit_try_invalid s w H)).
    rewrite (withdraw_caught s _ _ _ (withdraw_try_invalid s w H)).
    repeat split.
  - intros w b Hb H.
    destruct (w <=? 0) eqn:H0.
    + rewrite (withdraw_caught s _ _ _ (withdraw_try_invalid s w H0)).
      repeat split. exact Hb.
    + rewrite (withdraw_caught s _ _ _ (withdraw_try_insufficient s w b Hb H0 H)).
      repeat split. exact Hb.
  - intros amount e s' [H|H].
    + exact (deposit_try_raise s amount e s' H).
    + exact (withdraw_try_raise s amount e s' H).
Qed.

End Account_entity.

Section Balance_invariant.
Local Open Scope float_scope.

Lemma balance_set_balance v a : balance (set_balance v a) = v.
Proof. destruct a; reflexivity. Qed.

Lemma balance_nonneg_float a :
  balance_nonneg a = true -> exists b, balance a = PFloat b /\ (0 <=? b) = true.
Proof.
  unfold balance_nonneg. destruct (balance a) as [|b|x]; try discriminate. eauto.
Qed.

Lemma balance_nonneg_set_balance b a :
  balance_nonneg (set_balance (PFloat b) a) = (0 <=? b).
Proof. unfold balance_nonneg. rewrite balance_set_balance. reflexivity. Qed.

Lemma deposit_keeps_nonneg s d :
  balance_nonneg (self s) = true -> is_nan d = false ->
  balance_nonneg (self (snd (deposit (PFloat d) s))) = true.
Proof.
  intros H N. destruct (d <=? 0) eqn:H0.
  - rewrite (deposit_caught s _ _ _ (deposit_try_invalid s d H0)). exact H.
  - destruct (balance_nonneg_float _ H) as (b & Hb & Hpos).
    rewrite (deposit_returned s _ _ (deposit_try_valid s d b Hb H0)). simpl.
    rewrite balance_nonneg_set_balance.
    auto using float_add_nonneg, float_not_le0_pos.
Qed.

Lemma withdraw_keeps_nonneg s w :
  balance_nonneg (self s) = true -> is_nan w = false -> w <> infinity ->
  balance_nonneg (self (snd (withdraw (PFloat w) s))) = true.
Proof.
  intros H N I. destruct (w <=? 0) eqn:H0.
  - rewrite (withdraw_caught s _ _ _ (withdraw_try_invalid s w H0)). exact H.
  - destruct (balance_nonneg_float _ H) as (b & Hb & Hpos).
    destruct (b <? w) eqn:H1.
    + rewrite (withdraw_caught s _ _ _ (withdraw_try_insufficient s w b Hb H0 H1)).
      exact H.
    + rewrite (withdraw_returned s _ _ (withdraw_try_valid s w b Hb H0 H1)). simpl.
      rewrite balance_nonneg_set_balance.
      auto using float_sub_nonneg, float_not_le0_pos.
Qed.

Lemma save_to_file_self locate float_repr s :
  self (snd (save_to_file locate float_repr s)) = self s.
Proof.
  destruct (self s) as [n nm b|n nm b r] eqn:E.
  - rewrite (save_to_file_plain locate float_repr s n nm b E).
    destruct (locate _); exact E.
  - rewrite (save_to_file_savings locate float_repr s n nm b r E).
    destruct (locate _); exact E.
Qed.

Lemma load_from_file_balance locate float_repr s id a s' :
  load_from_file locate float_repr id s = (Return (Some a), s') ->
  exists data : gmap string pyval,
    stored locate float_repr (files s) id = Some (JObject data) /\
    data !! "balance" = Some (balance a).
Proof.
  destruct (stored locate float_repr (files s) id) as [[data|v]|] eqn:Hf.
  - intros H. exists data. split; [reflexivity|].
    destruct (data !! "account_number") as [n|] eqn:Hn;
      [destruct (data !! "name") as [nm|] eqn:Hnm;
       [destruct (data !! "balance") as [b|] eqn:Hb|]|];
      try (assert (Hk : data !! "account_number" = None \/ data !! "name" = None \/
                        data !! "balance" = None) by auto;
           destruct (load_from_file_KeyError locate float_repr s id data Hf Hk)
             as (k & E & _); rewrite E in H; discriminate).
    destruct (py_eq (default PNone (data !! "type")) (PStr "SavingsAccount")) eqn:Et.
    + assert (Ht : data !! "type" = Some (PStr "SavingsAccount")).
      { apply py_eq_str in Et. destruct (data !! "type"); simpl in Et; congruence. }
      rewrite (load_from_file_savings locate float_repr s id data n nm b Hf Ht Hn Hnm Hb)
        in H.
      injection H as <- _. reflexivity.
    + assert (Ht : data !! "type" <> Some (PStr "SavingsAccount")).
      { intros Ht. rewrite Ht in Et. discriminate. }
      rewrite (load_from_file_plain locate float_repr s id data n nm b Hf Ht Hn Hnm Hb)
        in H.
      injection H as <- _. reflexivity.
  - rewrite (load_from_file_not_a_dict locate float_repr s id v Hf). congruence.
  - rewrite (load_from_file_missing locate float_repr s id Hf). congruence.
Qed.

(** C4 (as amended).  The constructors and [load_from_file] do not check
    the balance: the account has the balance supplied or stored, whatever it
    is.  From a balance [>= 0], a [deposit] of an amount that is not NaN and
    a [withdraw] of an amount that is neither NaN nor [+inf] leave a balance
    [>= 0], and [save_to_file] leaves the account as it is. *)
Theorem balance_nonneg_preserved (locate : string -> exn + string)
    (float_repr : float -> string) (s : state) :
  (forall n nm b r,
     balance (BankAccount n nm b) = b /\ balance (SavingsAccount n nm b r) = b) /\
  (forall id a s',
     load_from_file locate float_repr id s = (Return (Some a), s') ->
     exists data : gmap string pyval,
       stored locate float_repr (files s) id = Some (JObject data) /\
       data !! "balance" = Some (balance a)) /\
  (balance_nonneg (self s) = true ->
     (forall d, is_nan d = false ->
        balance_nonneg (self (snd (deposit (PFloat d) s))) = true) /\
     (forall w, is_nan w = false -> w <> infinity ->
        balance_nonneg (self (snd (withdraw (PFloat w) s))) = true) /\
     self (snd (save_to_file locate float_repr s)) = self s).
Proof.
  split; [|split].
  - intros. split; reflexivity.
  - apply load_from_file_balance.
  - intros H. split; [|split].
    + intros d N. apply deposit_keeps_nonneg; assumption.
    + intros w N I. apply withdraw_keeps_nonneg; assumption.
    + apply save_to_file_self.
Qed.

End Balance_invariant.

Section Error_reporting.
Local Open Scope float_scope.

(** C8 (as amended).  With a float balance, [deposit] and [withdraw] return
    [None] for every float amount, refused or not: the ValueError of a
    refusal is caught inside the method, which prints "Error: " and its
    message, and nothing is raised to the caller. *)
Theorem failure_is_printed (s : state) (w b : float) :
  balance (self s) = PFloat b ->
  fst (deposit (PFloat w) s) = Return tt /\
  fst (withdraw (PFloat w) s) = Return tt /\
  ((w <=? 0) = true ->
     stdout (snd (deposit (PFloat w) s)) =
       (stdout s ++ [Error "Deposit amount must be positive."])%list /\
     stdout (snd (withdraw (PFloat w) s)) =
       (stdout s ++ [Error "Withdrawal amount must be positive."])%list) /\
  ((w <=? 0) = false -> (b <? w) = true ->
     stdout (snd (withdraw (PFloat w) s)) = (stdout s ++ [Error "Insufficient balance!"])%list) /\
  (forall amount msg s',
     (deposit_try amount s = (Raise (ValueError msg), s') ->
      deposit amount s = (Return tt, printed (Error msg) s')) /\
     (withdraw_try amount s = (Raise (ValueError msg), s') ->
      withdraw amount s = (Return tt, printed (Error msg) s'))).
Proof.
  intros Hb. repeat split.
  - destruct (w <=? 0) eqn:H0.
    + rewrite (deposit_caught s _ _ _ (deposit_try_invalid s w H0)). reflexivity.
    + rewrite (deposit_returned s _ _ (deposit_try_valid s w b Hb H0)). reflexivity.
  - destruct (w <=? 0) eqn:H0.
    + rewrite (withdraw_caught s _ _ _ (withdraw_try_invalid s w H0)). reflexivity.
    + destruct (b <? w) eqn:H1.
      * rewrite (withdraw_caught s _ _ _ (withdraw_try_insufficient s w b Hb H0 H1)).
        reflexivity.
      * rewrite (withdraw_returned s _ _ (withdraw_try_valid s w b Hb H0 H1)).
        reflexivity.
  - rewrite (deposit_caught s _ _ _ (deposit_try_invalid s w H)). reflexivity.
  - rewrite (withdraw_caught s _ _ _ (withdraw_try_invalid s w H)). reflexivity.
  - intros H0 H1.
    rewrite (withdraw_caught s _ _ _ (withdraw_try_insufficient s w b Hb H0 H1)).
    reflexivity.
  - apply deposit_caught.
  - apply withdraw_caught.
Qed.

End Error_reporting.

(** * The savings variant (specification, section 4.2) *)

Section Savings_variant.
Local Open Scope float_scope.

(** C9. [calculate_interest()] on a savings account returns
    [balance * interest_rate]; it prints one line and changes neither the
    object nor any file.  With balance 1000 and rate 0.05 it returns 50. *)
Theorem calculate_interest_contract (s : state) :
  (forall n nm b r, self s = SavingsAccount n nm (PFloat b) (PFloat r) ->
     calculate_interest s =
       (Return (PFloat (b * r)),
        printed (Annual_interest (PFloat r) (PFloat (b * r))) s) /\
     self (snd (calculate_interest s)) = self s /\
     files (snd (calculate_interest s)) = files s) /\
  (forall n nm out fs,
     fst (calculate_interest
            (State (SavingsAccount n nm (PFloat 1000) (PFloat 0.05)) out fs)) =
     Return (PFloat 50)).
Proof.
  split.
  - intros n nm b r H.
    assert (E : calculate_interest s =
                (Return (PFloat (b * r)),
                 printed (Annual_interest (PFloat r) (PFloat (b * r))) s)).
    { py_unfold. rewrite H. simpl. rewrite ?H. reflexivity. }
    rewrite E. repeat split.
  - intros. reflexivity.
Qed.

End Savings_variant.

(** * The persistence codec (specification, section 4.3) *)

Section Persistence_codec.

Variable locate : string -> exn + string.
Variable float_repr : float -> string.

Lemma load_from_file_found_not_None s id d :
  stored locate float_repr (files s) id = Some d ->
  fst (load_from_file locate float_repr id s) <> Return None.
Proof.
  intros Hf. destruct d as [data|v].
  - load_found Hf.
    destruct (py_eq _ _); simpl;
      destruct (data !! "account_number"); simpl; try congruence;
      destruct (data !! "name"); simpl; try congruence;
      destruct (data !! "balance"); simpl; congruence.
  - rewrite (load_from_file_not_a_dict locate float_repr s id v Hf). simpl. congruence.
Qed.


(** C6. A record whose "type" is absent, or is any value other than the
    string "SavingsAccount", loads as a plain [BankAccount] made of the
    stored account number, name and balance: whatever that value is, the
    load succeeds. *)
Theorem load_other_type (s : state) (id : pyval) (data : gmap string pyval)
    (n nm b : pyval) :
  stored locate float_repr (files s) id = Some (JObject data) ->
  data !! "type" <> Some (PStr "SavingsAccount") ->
  data !! "account_number" = Some n ->
  data !! "name" = Some nm ->
  data !! "balance" = Some b ->
  load_from_file locate float_repr id s = (Return (Some (BankAccount n nm b)), s).
Proof. apply load_from_file_plain. Qed.

(** C7. A record of type "SavingsAccount" loads as a [SavingsAccount] whose
    interest rate is the stored "interest_rate", and 0.05 when the record
    has none. *)
Theorem load_savings_interest_rate (s : state) (id : pyval)
    (data : gmap string pyval) (n nm b : pyval) :
  stored locate float_repr (files s) id = Some (JObject data) ->
  data !! "type" = Some (PStr "SavingsAccount") ->
  data !! "account_number" = Some n ->
  data !! "name" = Some nm ->
  data !! "balance" = Some b ->
  (data !! "interest_rate" = None ->
     load_from_file locate float_repr id s =
       (Return (Some (SavingsAccount n nm b (PFloat 0.05%float))), s)) /\
  (forall r, data !! "interest_rate" = Some r ->
     load_from_file locate float_repr id s = (Return (Some (SavingsAccount n nm b r)), s)).
Proof.
  intros Hf Ht Hn Hnm Hb.
  rewrite (load_from_file_savings locate float_repr s id data n nm b Hf Ht Hn Hnm Hb).
  split; [intros ->|intros r ->]; reflexivity.
Qed.

(** C10. [load_from_file] returns [None] exactly when there is no file for
    the account number; when the file holds a record that lacks
    "account_number", "name" or "balance", it raises [KeyError] for the
    first of them that is missing, and returns nothing. *)
Theorem load_None_iff_no_file (s : state) (id : pyval) :
  (fst (load_from_file locate float_repr id s) = Return None <->
   stored locate float_repr (files s) id = None) /\
  (forall data : gmap string pyval,
     stored locate float_repr (files s) id = Some (JObject data) ->
     data !! "account_number" = None \/ data !! "name" = None \/
       data !! "balance" = None ->
     exists key,
       load_from_file locate float_repr id s = (Raise (KeyError key), s) /\
       data !! key = None /\
       (key = "account_number" \/ key = "name" \/ key = "balance")).
Proof.
  split.
  - split.
    + intros H. destruct (stored locate float_repr (files s) id) as [d|] eqn:Hf; [|reflexivity].
      destruct (load_from_file_found_not_None s id d Hf H).
    + intros Hf. rewrite (load_from_file_missing locate float_repr s id Hf). reflexivity.
  - apply load_from_file_KeyError.
Qed.

End Persistence_codec.

(** * The statements on examples *)

Section Examples.
Local Open Scope float_scope.

(** [withdraw] on a balance of 100: 30 is withdrawn, 1000 is above the
    balance, and -1 is refused as an amount even on an overdrawn account,
    where it is above the balance too. *)
Lemma withdraw_contract_witness :
  (withdraw (PFloat 30) (fresh asha) =
     (Return tt,
      State (BankAccount (PStr "1001") (PStr "Asha") (PFloat 70))
        [Withdrawn (PFloat 30)] ∅) /\
   balance (self (snd (withdraw (PFloat 30) (fresh asha)))) = PFloat 70) /\
  withdraw (PFloat 1000) (fresh asha) =
    (Return tt, State asha [Error "Insufficient balance!"] ∅) /\
  withdraw (PFloat (-1)) (fresh overdrawn) =
    (Return tt, State overdrawn [Error "Withdrawal amount must be positive."] ∅).
Proof.
  split; [|split].
  - exact (proj2 (proj2 (withdraw_contract (fresh asha) 30) 100 eq_refl eq_refl) eq_refl).
  - exact (proj2 (proj1 (proj2 (withdraw_contract (fresh asha) 1000) 100 eq_refl eq_refl)
                    eq_refl)).
  - exact (proj2 (proj1 (withdraw_contract (fresh overdrawn) (-1)) eq_refl)).
Defined.

(** C1, the claim as it is stated: 1 is a valid amount and is not above the
    balance 10^16, the withdrawal is accepted and printed, and the balance
    is 10^16 as before: it has not decreased by 1.  The float below 10^16
    is 10^16 - 2, and 10^16 - 1 rounds to 10^16. *)
Lemma withdraw_not_exact :
  balance mira = PFloat 1e16 /\
  (1 <=? 0) = false /\
  (1e16 <? 1) = false /\
  withdraw (PFloat 1) (fresh mira) =
    (Return tt, State mira [Withdrawn (PFloat 1)] ∅) /\
  balance (self (snd (withdraw (PFloat 1) (fresh mira)))) = PFloat 1e16 /\
  (1e16 - 2 <? 1e16) = true /\
  next_down 1e16 = 1e16 - 2.
Proof. repeat split. Qed.

Lemma deposit_contract_witness :
  (deposit (PFloat 50) (fresh asha) =
     (Return tt,
      State (BankAccount (PStr "1001") (PStr "Asha") (PFloat 150))
        [Deposited (PFloat 50)] ∅) /\
   balance (self (snd (deposit (PFloat 50) (fresh asha)))) = PFloat 150) /\
  fst (deposit_try (PFloat 50) (fresh asha)) = Return tt /\
  deposit (PFloat 0) (fresh asha) =
    (Return tt, State asha [Error "Deposit amount must be positive."] ∅).
Proof.
  split; [|split].
  - exact (proj1 (proj2 (deposit_contract (fresh asha) 50) 100 eq_refl) eq_refl).
  - exact (f_equal fst
             (proj1 (proj2 (proj2 (deposit_contract (fresh asha) 50) 100 eq_refl)
                       eq_refl))).
  - exact (proj2 (proj1 (deposit_contract (fresh asha) 0) eq_refl)).
Defined.

(** C2, the claim as it is stated: 1 is a positive amount, the deposit is
    accepted and printed, and the balance is 10^16 as before: it has not
    increased by 1.  The float above 10^16 is 10^16 + 2, and 10^16 + 1
    rounds to 10^16. *)
Lemma deposit_not_exact :
  balance mira = PFloat 1e16 /\
  (0 <? 1) = true /\
  deposit (PFloat 1) (fresh mira) =
    (Return tt, State mira [Deposited (PFloat 1)] ∅) /\
  balance (self (snd (deposit (PFloat 1) (fresh mira)))) = PFloat 1e16 /\
  (1e16 <? 1e16 + 2) = true /\
  next_up 1e16 = 1e16 + 2.
Proof. repeat split. Qed.

Lemma failure_leaves_account_witness :
  self (snd (deposit (PFloat (-5)) (fresh asha))) = asha /\
  self (snd (withdraw (PFloat (-5)) (fresh asha))) = asha /\
  balance (self (snd (withdraw (PFloat 1000) (fresh asha)))) = PFloat 100.
Proof.
  pose proof (failure_leaves_account (fresh asha)) as (H1 & H2 & _).
  destruct (H1 (-5) eq_refl) as (Hd & _ & Hw & _).
  destruct (H2 1000 100 eq_refl eq_refl) as (_ & Hb & _).
  exact (conj Hd (conj Hw Hb)).
Defined.

(** C4, the claim as it is stated: an account made with the initial balance
    -50 has the balance -50, which is below zero, and so does the account
    loaded after it is saved. *)
Lemma negative_initial_balance :
  fst (get_balance (fresh overdrawn)) = Return (PFloat (-50)) /\
  (-50 <? 0) = true /\
  balance_nonneg overdrawn = false /\
  fst (load_from_file working_directory repr_unused (PStr "1002")
         (snd (save_to_file working_directory repr_unused (fresh overdrawn)))) =
    Return (Some overdrawn).
Proof. repeat split. Qed.

Lemma balance_nonneg_preserved_witness :
  balance_nonneg (self (snd (deposit (PFloat 50) (fresh asha)))) = true /\
  balance_nonneg (self (snd (withdraw (PFloat 100) (fresh asha)))) = true /\
  self (snd (save_to_file working_directory repr_unused (fresh asha))) = asha.
Proof.
  pose proof (balance_nonneg_preserved working_directory repr_unused (fresh asha)) as (_ & _ & H).
  destruct (H eq_refl) as (Hd & Hw & Hs).
  refine (conj (Hd 50 eq_refl) (conj (Hw 100 eq_refl _) Hs)).
  discriminate.
Defined.

(** The amounts that the amended C4 leaves out: a NaN passes both checks
    of [deposit], and [+inf] can be withdrawn from a balance of [+inf]; the
    balance is NaN afterwards. *)
Example deposit_nan :
  balance (self (snd (deposit (PFloat nan) (fresh asha)))) = PFloat nan /\
  balance_nonneg (self (snd (deposit (PFloat nan) (fresh asha)))) = false.
Proof. split; reflexivity. Qed.

Example withdraw_infinity :
  balance (self (snd (withdraw (PFloat infinity)
                        (fresh (BankAccount (PStr "1001") (PStr "Asha") (PFloat infinity))))))
  = PFloat nan.
Proof. reflexivity. Qed.

(** C8, the claim as it is stated: a refused deposit and a refused
    withdrawal raise a ValueError inside the method, and what the caller
    gets is [None], as from the calls that succeed. *)
Lemma failure_returns_like_success :
  deposit_try (PFloat (-5)) (fresh asha) =
    (Raise (ValueError "Deposit amount must be positive."), fresh asha) /\
  fst (deposit (PFloat (-5)) (fresh asha)) = Return tt /\
  fst (deposit (PFloat 5) (fresh asha)) = Return tt /\
  withdraw_try (PFloat 1000) (fresh asha) =
    (Raise (ValueError "Insufficient balance!"), fresh asha) /\
  fst (withdraw (PFloat 1000) (fresh asha)) = Return tt /\
  fst (withdraw (PFloat 5) (fresh asha)) = Return tt.
Proof. repeat split. Qed.

Lemma failure_is_printed_witness :
  fst (deposit (PFloat (-5)) (fresh asha)) = Return tt /\
  stdout (snd (deposit (PFloat (-5)) (fresh asha))) =
    [Error "Deposit amount must be positive."] /\
  stdout (snd (withdraw (PFloat 1000) (fresh asha))) = [Error "Insufficient balance!"].
Proof.
  pose proof (failure_is_printed (fresh asha) (-5) 100 eq_refl) as (H1 & _ & H2 & _).
  pose proof (failure_is_printed (fresh asha) 1000 100 eq_refl) as (_ & _ & _ & H3 & _).
  exact (conj H1 (conj (proj1 (H2 eq_refl)) (H3 eq_refl eq_refl))).
Defined.

Lemma calculate_interest_contract_witness :
  calculate_interest (fresh ravi) =
    (Return (PFloat 10),
     printed (Annual_interest (PFloat 0.05) (PFloat 10)) (fresh ravi)).
Proof.
  exact (proj1 (proj1 (calculate_interest_contract (fresh ravi))
                  (PStr "S1") (PStr "Ravi") 200 0.05 eq_refl)).
Defined.

(** The specification's scenarios: on a balance of 0, a deposit of 100
    then a withdrawal of 50 leave 50, and a withdrawal of 1000 in between is
    refused with the balance still 100. *)
Example deposit_then_withdraw :
  let opened := fresh (BankAccount (PStr "1001") (PStr "Asha") (PFloat 0)) in
  let credited := snd (deposit (PFloat 100) opened) in
  let refused := snd (withdraw (PFloat 1000) credited) in
  balance (self refused) = PFloat 100 /\
  stdout refused = [Deposited (PFloat 100); Error "Insufficient balance!"] /\
  balance (self (snd (withdraw (PFloat 50) refused))) = PFloat 50.
Proof. repeat split. Qed.

(** A savings account "S1" with balance 200 and rate 0.05, saved, then
    loaded. *)
Example load_after_save_S1 :
  fst (load_from_file working_directory repr_unused (PStr "S1")
         (snd (save_to_file working_directory repr_unused (fresh ravi)))) =
  Return (Some (SavingsAccount (PStr "S1") (PStr "Ravi") (PFloat 200) (PFloat 0.05))).
Proof. reflexivity. Qed.


Lemma load_other_type_witness :
  load_from_file working_directory repr_unused (PStr "1003")
    (with_file "1003.json" (JObject record_unknown_type) asha) =
    (Return (Some (BankAccount (PStr "1003") (PStr "Lena") (PFloat 10))),
     with_file "1003.json" (JObject record_unknown_type) asha) /\
  load_from_file working_directory repr_unused (PStr "1003")
    (with_file "1003.json" (JObject record_no_type) asha) =
    (Return (Some (BankAccount (PStr "1003") (PStr "Lena") (PFloat 10))),
     with_file "1003.json" (JObject record_no_type) asha).
Proof.
  split.
  - apply (load_other_type working_directory repr_unused _ (PStr "1003") record_unknown_type);
      [reflexivity|discriminate|reflexivity..].
  - apply (load_other_type working_directory repr_unused _ (PStr "1003") record_no_type);
      [reflexivity|discriminate|reflexivity..].
Defined.

Lemma load_savings_interest_rate_witness :
  load_from_file working_directory repr_unused (PStr "1003")
    (with_file "1003.json" (JObject record_savings_no_rate) asha) =
    (Return (Some (SavingsAccount (PStr "1003") (PStr "Lena") (PFloat 10) (PFloat 0.05))),
     with_file "1003.json" (JObject record_savings_no_rate) asha) /\
  load_from_file working_directory repr_unused (PStr "1003")
    (with_file "1003.json" (JObject record_savings_rate) asha) =
    (Return (Some (SavingsAccount (PStr "1003") (PStr "Lena") (PFloat 10) (PFloat 0.25))),
     with_file "1003.json" (JObject record_savings_rate) asha).
Proof.
  split.
  - exact (proj1 (load_savings_interest_rate working_directory repr_unused
                    (with_file "1003.json" (JObject record_savings_no_rate) asha)
                    (PStr "1003") record_savings_no_rate
                    (PStr "1003") (PStr "Lena") (PFloat 10)
                    eq_refl eq_refl eq_refl eq_refl eq_refl) eq_refl).
  - exact (proj2 (load_savings_interest_rate working_directory repr_unused
                    (with_file "1003.json" (JObject record_savings_rate) asha)
                    (PStr "1003") record_savings_rate
                    (PStr "1003") (PStr "Lena") (PFloat 10)
                    eq_refl eq_refl eq_refl eq_refl eq_refl) (PFloat 0.25) eq_refl).
Defined.

Lemma load_None_iff_no_file_witness :
  fst (load_from_file working_directory repr_unused (PStr "1004")
         (with_file "1003.json" (JObject record_no_balance) asha)) = Return None /\
  exists key,
    load_from_file working_directory repr_unused (PStr "1003")
      (with_file "1003.json" (JObject record_no_balance) asha) =
      (Raise (KeyError key), with_file "1003.json" (JObject record_no_balance) asha) /\
    record_no_balance !! key = None /\
    (key = "account_number" \/ key = "name" \/ key = "balance").
Proof.
  split.
  - exact (proj2 (proj1 (load_None_iff_no_file working_directory repr_unused
                           (with_file "1003.json" (JObject record_no_balance) asha)
                           (PStr "1004"))) eq_refl).
  - exact (proj2 (load_None_iff_no_file working_directory repr_unused
                    (with_file "1003.json" (JObject record_no_balance) asha)
                    (PStr "1003")) record_no_balance eq_refl
             (or_intror (or_intror eq_refl))).
Defined.

End Examples.

(** * Further properties of the methods *)

Section Methods_frame.
Local Open Scope float_scope.

(** [deposit] and [withdraw], whatever the amount and the balance are:
    they return or raise TypeError, write no file, and leave of the object
    everything but the balance. *)
Lemma deposit_frame s amount :
  (fst (deposit amount s) = Return tt \/ fst (deposit amount s) = Raise TypeError) /\
  files (snd (deposit amount s)) = files s /\
  self (snd (deposit amount s)) = set_balance (balance (self (snd (deposit amount s)))) (self s).
Proof.
  destruct s as [a out fs]. py_unfold.
  destruct amount as [|d|x]; simpl; [destruct a; auto| |destruct a; auto].
  destruct (d <=? 0); simpl; [destruct a; auto|].
  destruct a as [n nm [|b|b]|n nm [|b|b] r]; simpl; auto.
Qed.

Lemma withdraw_frame s amount :
  (fst (withdraw amount s) = Return tt \/ fst (withdraw amount s) = Raise TypeError) /\
  files (snd (withdraw amount s)) = files s /\
  self (snd (withdraw amount s)) =
    set_balance (balance (self (snd (withdraw amount s)))) (self s).
Proof.
  destruct s as [a out fs]. py_unfold.
  destruct amount as [|w|x]; simpl; [destruct a; auto| |destruct a; auto].
  destruct (w <=? 0); simpl; [destruct a; auto|].
  destruct a as [n nm [|b|b]|n nm [|b|b] r]; simpl; auto;
    destruct (b <? w); simpl; auto.
Qed.

(** X7. Whatever the amount and the balance are, [deposit] and [withdraw]
    return [None] or raise TypeError, write no file, and change nothing of
    the object but its balance: the account number, the name, the class and
    the interest rate stay. *)
Theorem deposit_withdraw_change_balance_only (s : state) (amount : pyval) :
  ((fst (deposit amount s) = Return tt \/ fst (deposit amount s) = Raise TypeError) /\
   files (snd (deposit amount s)) = files s /\
   self (snd (deposit amount s)) =
     set_balance (balance (self (snd (deposit amount s)))) (self s)) /\
  ((fst (withdraw amount s) = Return tt \/ fst (withdraw amount s) = Raise TypeError) /\
   files (snd (withdraw amount s)) = files s /\
   self (snd (withdraw amount s)) =
     set_balance (balance (self (snd (withdraw amount s)))) (self s)).
Proof. split; [apply deposit_frame|apply withdraw_frame]. Qed.

Lemma SFcompare_refl x : x <> S754_nan -> SFcompare x x = Some Eq.
Proof.
  destruct x as [[|]|[|]| |[|] m e]; simpl; try reflexivity; try congruence; intros _;
    rewrite Z.compare_refl, Pos.compare_cont_refl; reflexivity.
Qed.

Lemma float_lt_irrefl x : (x <? x) = false.
Proof.
  rewrite FloatAxioms.ltb_spec. unfold SFltb.
  destruct (Prim2SF x) as [[|]|[|]| |[|] m e] eqn:E; try reflexivity;
    rewrite SFcompare_refl by discriminate; reflexivity.
Qed.

(** The difference of a positive finite float and itself is [+0]. *)
Lemma float_sub_diag x : (0 <? x) = true -> x <> infinity -> x - x = 0.
Proof.
  intros Hpos Hinf. apply Prim2SF_inj.
  rewrite FloatAxioms.sub_spec, Prim2SF_zero.
  rewrite FloatAxioms.ltb_spec, Prim2SF_zero in Hpos.
  destruct (Prim2SF x) as [sx|[|]| |[|] m e] eqn:E; try discriminate.
  - destruct Hinf. apply Prim2SF_inj. rewrite E. reflexivity.
  - unfold SF64sub, SFsub. simpl cond_Zopp. rewrite Z.sub_diag. reflexivity.
Qed.

(** X6. Withdrawing the whole of a positive finite balance is accepted and
    leaves a balance of exactly 0.0: the account number, the name, the class
    and the interest rate stay, the line of the withdrawal is printed and no
    file changes. *)
Theorem withdraw_whole_balance (s : state) (b : float) :
  balance (self s) = PFloat b -> (0 <? b) = true -> b <> infinity ->
  withdraw (PFloat b) s =
    (Return tt,
     State
       (match self s with
        | BankAccount n nm _ => BankAccount n nm (PFloat 0)
        | SavingsAccount n nm _ r => SavingsAccount n nm (PFloat 0) r
        end)
       (stdout s ++ [Withdrawn (PFloat b)])%list (files s)) /\
  balance (self (snd (withdraw (PFloat b) s))) = PFloat 0.
Proof.
  intros Hb Hpos Hinf.
  rewrite (withdraw_returned s _ _
             (withdraw_try_valid s b b Hb (float_pos_not_le0 b Hpos) (float_lt_irrefl b))).
  rewrite (float_sub_diag b Hpos Hinf).
  unfold printed, with_balance, set_balance. simpl.
  destruct (self s); split; reflexivity.
Qed.

End Methods_frame.

Section Files_frame.

Variable locate : string -> exn + string.
Variable float_repr : float -> string.

(** [load_from_file] either finds the file and leaves the state as it is,
    or prints that the account is not found. *)
Lemma load_from_file_state s id :
  snd (load_from_file locate float_repr id s) =
    match stored locate float_repr (files s) id with
    | Some _ => s
    | None => printed Account_not_found s
    end.
Proof.
  destruct (stored locate float_repr (files s) id) as [[data|v]|] eqn:Hf.
  - load_found Hf.
    destruct (py_eq _ _); simpl;
      destruct (data !! "account_number"); simpl; try reflexivity;
      destruct (data !! "name"); simpl; try reflexivity;
      destruct (data !! "balance"); reflexivity.
  - rewrite (load_from_file_not_a_dict locate float_repr s id v Hf). reflexivity.
  - rewrite (load_from_file_missing locate float_repr s id Hf). reflexivity.
Qed.

(** What [load_from_file] returns depends on the file of that account
    number only. *)
Lemma load_from_file_outcome s1 s2 id :
  stored locate float_repr (files s1) id = stored locate float_repr (files s2) id ->
  fst (load_from_file locate float_repr id s1) = fst (load_from_file locate float_repr id s2).
Proof.
  intros H. destruct (stored locate float_repr (files s2) id) as [[data|v]|] eqn:Hf.
  - destruct (stored_located _ _ _ _ _ H) as (f1 & Hloc1 & Hf1).
    destruct (stored_located _ _ _ _ _ Hf) as (f2 & Hloc2 & Hf2).
    rewrite Hloc1 in Hloc2. injection Hloc2 as <-.
    load_unfold. rewrite Hloc1. simpl.
    rewrite Hf1, Hf2, bool_decide_true by (eexists; reflexivity). simpl.
    rewrite ?Hf1, ?Hf2. simpl.
    destruct (py_eq _ _); simpl;
      destruct (data !! "account_number"); simpl; try reflexivity;
      destruct (data !! "name"); simpl; try reflexivity;
      destruct (data !! "balance"); reflexivity.
  - rewrite (load_from_file_not_a_dict locate float_repr s1 id v H),
      (load_from_file_not_a_dict locate float_repr s2 id v Hf). reflexivity.
  - rewrite (load_from_file_missing locate float_repr s1 id H),
      (load_from_file_missing locate float_repr s2 id Hf). reflexivity.
Qed.

(** [save_to_file] raises what [open] raises and changes nothing, or
    returns with one file written. *)
Lemma save_to_file_cases s :
  match locate (filename float_repr (account_number (self s))) with
  | inl e => save_to_file locate float_repr s = (Raise e, s)
  | inr f =>
      fst (save_to_file locate float_repr s) = Return tt /\
      exists data,
        files (snd (save_to_file locate float_repr s)) = <[f := JObject data]> (files s)
  end.
Proof.
  destruct (self s) as [n nm b|n nm b r] eqn:E.
  - rewrite (save_to_file_plain locate float_repr s n nm b E). simpl.
    destruct (locate (filename float_repr n)); simpl; eauto.
  - rewrite (save_to_file_savings locate float_repr s n nm b r E). simpl.
    destruct (locate (filename float_repr n)); simpl; eauto.
Qed.

Lemma save_to_file_other_accounts s id :
  locate (filename float_repr id) <>
    locate (filename float_repr (account_number (self s))) ->
  stored locate float_repr (files (snd (save_to_file locate float_repr s))) id =
  stored locate float_repr (files s) id.
Proof.
  intros Hne. pose proof (save_to_file_cases s) as C.
  destruct (locate (filename float_repr (account_number (self s)))) as [e|f].
  - rewrite C. reflexivity.
  - destruct C as (_ & data & ->). apply stored_insert_ne, Hne.
Qed.

(** X1. [save_to_file] leaves the object as it is.  When the file named
    after the account number cannot be opened it raises what [open] raises
    and changes nothing; otherwise it returns, that file holds a record, and
    every other file is as it was. *)
Theorem save_to_file_writes_one_file (s : state) :
  self (snd (save_to_file locate float_repr s)) = self s /\
  match locate (filename float_repr (account_number (self s))) with
  | inl e => save_to_file locate float_repr s = (Raise e, s)
  | inr p =>
      fst (save_to_file locate float_repr s) = Return tt /\
      (exists data,
         files (snd (save_to_file locate float_repr s)) !! p = Some (JObject data)) /\
      forall q, q <> p ->
        files (snd (save_to_file locate float_repr s)) !! q = files s !! q
  end.
Proof.
  split; [apply save_to_file_self|].
  pose proof (save_to_file_cases s) as C.
  destruct (locate _) as [e|p]; [exact C|].
  destruct C as (Hret & data & Hfiles). split; [exact Hret|]. rewrite Hfiles. split.
  - exists data. apply lookup_insert_eq.
  - intros q Hq. apply lookup_insert_ne. congruence.
Qed.

(** X2. [load_from_file] only reads: the object and the files are left as
    they are, and nothing is printed but "Account not found!" when there is
    no file for the account number. *)
Theorem load_from_file_reads_only (s : state) (id : pyval) :
  self (snd (load_from_file locate float_repr id s)) = self s /\
  files (snd (load_from_file locate float_repr id s)) = files s /\
  (stdout (snd (load_from_file locate float_repr id s)) = stdout s \/
   stored locate float_repr (files s) id = None /\
   stdout (snd (load_from_file locate float_repr id s)) = (stdout s ++ [Account_not_found])%list).
Proof.
  rewrite load_from_file_state.
  destruct (stored locate float_repr (files s) id); simpl; auto.
Qed.

(** X3. Saving twice writes what saving once writes. *)
Theorem save_to_file_twice (s : state) :
  files (snd (save_to_file locate float_repr (snd (save_to_file locate float_repr s)))) =
  files (snd (save_to_file locate float_repr s)).
Proof.
  destruct (self s) as [n nm b|n nm b r] eqn:E.
  - rewrite (save_to_file_plain locate float_repr s n nm b E).
    destruct (locate (filename float_repr n)) as [e|f] eqn:Hloc.
    + simpl. rewrite (save_to_file_plain locate float_repr s n nm b E), Hloc. reflexivity.
    + erewrite save_to_file_plain by (simpl; exact E). rewrite Hloc. simpl.
      apply insert_insert_eq.
  - rewrite (save_to_file_savings locate float_repr s n nm b r E).
    destruct (locate (filename float_repr n)) as [e|f] eqn:Hloc.
    + simpl. rewrite (save_to_file_savings locate float_repr s n nm b r E), Hloc. reflexivity.
    + erewrite save_to_file_savings by (simpl; exact E). rewrite Hloc. simpl.
      apply insert_insert_eq.
Qed.

(** X4. Saving an account does not change what loading another account
    number gives, when the two account numbers are not located alike: they
    name two files, or one of them names none. *)
Theorem save_to_file_keeps_other_accounts (s : state) (id : pyval) :
  locate (filename float_repr id) <>
    locate (filename float_repr (account_number (self s))) ->
  fst (load_from_file locate float_repr id (snd (save_to_file locate float_repr s))) =
  fst (load_from_file locate float_repr id s).
Proof.
  intros Hne. apply load_from_file_outcome, save_to_file_other_accounts, Hne.
Qed.

End Files_frame.

Section Load_then_save.

Variable locate : string -> exn + string.
Variable float_repr : float -> string.

(** What a record is when [load_from_file] returns an account. *)
Lemma load_from_file_Some s id (data : gmap string pyval) a s' :
  stored locate float_repr (files s) id = Some (JObject data) ->
  load_from_file locate float_repr id s = (Return (Some a), s') ->
  exists n nm b,
    data !! "account_number" = Some n /\ data !! "name" = Some nm /\
    data !! "balance" = Some b /\
    (data !! "type" = Some (PStr "SavingsAccount") /\
     a = SavingsAccount n nm b (default (PFloat 0.05%float) (data !! "interest_rate")) \/
     data !! "type" <> Some (PStr "SavingsAccount") /\ a = BankAccount n nm b).
Proof.
  intros Hf Hload.
  destruct (data !! "account_number") as [n|] eqn:Hn;
    [destruct (data !! "name") as [nm|] eqn:Hnm;
     [destruct (data !! "balance") as [b|] eqn:Hb|]|].
  - exists n, nm, b. repeat (split; [reflexivity|]).
    assert (Ht : data !! "type" = Some (PStr "SavingsAccount") \/
                 data !! "type" <> Some (PStr "SavingsAccount")).
    { destruct (py_eq (default PNone (data !! "type")) (PStr "SavingsAccount")) eqn:E.
      - apply py_eq_str in E. destruct (data !! "type"); simpl in E;
          [left; congruence|discriminate].
      - right. intros Ht. rewrite Ht in E. discriminate. }
    destruct Ht as [Ht|Ht].
    + rewrite (load_from_file_savings locate float_repr s id data n nm b Hf Ht Hn Hnm Hb) in Hload.
      injection Hload as <- _. left. split; [exact Ht|reflexivity].
    + rewrite (load_from_file_plain locate float_repr s id data n nm b Hf Ht Hn Hnm Hb) in Hload.
      injection Hload as <- _. right. split; [exact Ht|reflexivity].
  - destruct (load_from_file_KeyError locate float_repr s id data Hf) as (k & E & _); auto.
    rewrite E in Hload. discriminate.
  - destruct (load_from_file_KeyError locate float_repr s id data Hf) as (k & E & _); auto.
    rewrite E in Hload. discriminate.
  - destruct (load_from_file_KeyError locate float_repr s id data Hf) as (k & E & _); auto.
    rewrite E in Hload. discriminate.
Qed.

(** X5. Saving an account just loaded rewrites its record in the form
    [save_to_file] gives it: the type is "SavingsAccount" or "BankAccount"
    (whatever else the record said), a savings record that had no interest
    rate gets 0.05, the three other fields are kept and every further key of
    the record is dropped.  The record goes into the file that the account
    number of the loaded account names; when that file cannot be opened,
    [save_to_file] raises what [open] raises and nothing is written. *)
Theorem load_then_save_rewrites_record (s : state) (id : pyval)
    (data : gmap string pyval) (a : account) (s' : state) :
  stored locate float_repr (files s) id = Some (JObject data) ->
  load_from_file locate float_repr id s = (Return (Some a), s') ->
  exists saved : gmap string pyval,
    match locate (filename float_repr (account_number a)) with
    | inr p =>
        files (snd (save_to_file locate float_repr (State a (stdout s') (files s'))))
          !! p = Some (JObject saved)
    | inl e =>
        save_to_file locate float_repr (State a (stdout s') (files s')) =
          (Raise e, State a (stdout s') (files s'))
    end /\
    (isinstance_SavingsAccount a = true <->
     data !! "type" = Some (PStr "SavingsAccount")) /\
    saved !! "type" =
      Some (PStr (if isinstance_SavingsAccount a then "SavingsAccount" else "BankAccount")) /\
    saved !! "account_number" = data !! "account_number" /\
    saved !! "name" = data !! "name" /\
    saved !! "balance" = data !! "balance" /\
    saved !! "interest_rate" =
      (if isinstance_SavingsAccount a
       then Some (default (PFloat 0.05%float) (data !! "interest_rate"))
       else None) /\
    (forall k, k ∉ ["type"; "account_number"; "name"; "balance"; "interest_rate"] ->
               saved !! k = None).
Proof.
  intros Hf Hload.
  destruct (load_from_file_Some s id data a s' Hf Hload)
    as (n & nm & b & Hn & Hnm & Hb & [[Ht ->]|[Ht ->]]).
  - erewrite save_to_file_savings by reflexivity. simpl.
    eexists. split;
      [destruct (locate (filename float_repr n)); [reflexivity|apply lookup_insert_eq]|].
    rewrite Hn, Hnm, Hb.
    split; [split; [intros _; exact Ht|reflexivity]|].
    repeat (split; [reflexivity|]).
    intros k Hk.
    repeat (rewrite lookup_insert_ne; [|intros <-; apply Hk; set_solver]).
    apply lookup_empty.
  - erewrite save_to_file_plain by reflexivity. simpl.
    eexists. split;
      [destruct (locate (filename float_repr n)); [reflexivity|apply lookup_insert_eq]|].
    rewrite Hn, Hnm, Hb.
    split; [split; [discriminate|intros Ht'; destruct (Ht Ht')]|].
    repeat (split; [reflexivity|]).
    intros k Hk.
    repeat (rewrite lookup_insert_ne; [|intros <-; apply Hk; set_solver]).
    apply lookup_empty.
Qed.

End Load_then_save.

(** * The console (the menu's functions) *)

Ltac io_unfold :=
  unfold Console.create_account, Console.deposit_money, Console.withdraw_money,
    Console.check_balance, Console.calculate_interest, Console.display_account_info,
    Console.format_2f, Console.float_of_input, Console.call_static, Console.call,
    Console.try_except_ValueError, Console.input, Console.say,
    mbind, mret, Console.io_mbind, Console.io_mret, Console.io_bind, Console.io_ret,
    Console.fail in *.

Create HintDb console discriminated.

Section Console_combinators.

Lemma reads_ret {A} (a : A) : reads_from_front (Console.io_ret a).
Proof. intros t. reflexivity. Qed.

Lemma reads_fail {A} e : reads_from_front (@Console.fail A e).
Proof. intros t. reflexivity. Qed.

Lemma reads_say o : reads_from_front (Console.say o).
Proof. intros t. reflexivity. Qed.

Lemma reads_input p : reads_from_front (Console.input p).
Proof.
  intros t. unfold Console.input. destruct (Console.stdin t) as [|x rest]; simpl.
  - reflexivity.
  - apply suffix_cons_r. reflexivity.
Qed.

Lemma reads_call {A} a (m : py A) : reads_from_front (Console.call a m).
Proof.
  intros t. unfold Console.call. destruct (m _) as [[x|e] s]; reflexivity.
Qed.

Lemma reads_bind {A B} (m : Console.io A) (k : A -> Console.io B) :
  reads_from_front m -> (forall a, reads_from_front (k a)) ->
  reads_from_front (Console.io_bind m k).
Proof.
  intros Hm Hk t. unfold Console.io_bind.
  specialize (Hm t). destruct (m t) as [[a|e] t']; simpl in *; [|exact Hm].
  etrans; [apply Hk|exact Hm].
Qed.

Lemma reads_try {A} (body handler : Console.io A) :
  reads_from_front body -> reads_from_front handler ->
  reads_from_front (Console.try_except_ValueError body handler).
Proof.
  intros Hb Hh t. unfold Console.try_except_ValueError.
  specialize (Hb t). destruct (body t) as [[a|[[msg| | | |]|]] t']; simpl in *; try exact Hb.
  etrans; [apply Hh|exact Hb].
Qed.

Lemma keeps_ret {A} (a : A) : writes_no_file (Console.io_ret a).
Proof. intros t. reflexivity. Qed.

Lemma keeps_fail {A} e : writes_no_file (@Console.fail A e).
Proof. intros t. reflexivity. Qed.

Lemma keeps_say o : writes_no_file (Console.say o).
Proof. intros t. reflexivity. Qed.

Lemma keeps_input p : writes_no_file (Console.input p).
Proof.
  intros t. unfold Console.input. destruct (Console.stdin t); reflexivity.
Qed.

Lemma keeps_call {A} a (m : py A) :
  method_writes_no_file m -> writes_no_file (Console.call a m).
Proof.
  intros Hm t. unfold Console.call.
  specialize (Hm (State a [] (Console.disk t))).
  destruct (m _) as [[x|e] s]; exact Hm.
Qed.

Lemma keeps_bind {A B} (m : Console.io A) (k : A -> Console.io B) :
  writes_no_file m -> (forall a, writes_no_file (k a)) ->
  writes_no_file (Console.io_bind m k).
Proof.
  intros Hm Hk t. unfold Console.io_bind.
  specialize (Hm t). destruct (m t) as [[a|e] t']; simpl in *; [|exact Hm].
  rewrite Hk. exact Hm.
Qed.

Lemma keeps_try {A} (body handler : Console.io A) :
  writes_no_file body -> writes_no_file handler ->
  writes_no_file (Console.try_except_ValueError body handler).
Proof.
  intros Hb Hh t. unfold Console.try_except_ValueError.
  specialize (Hb t). destruct (body t) as [[a|[[msg| | | |]|]] t']; simpl in *; try exact Hb.
  rewrite Hh. exact Hb.
Qed.

Lemma reads_format_2f v : reads_from_front (Console.format_2f v).
Proof. destruct v; intros t; reflexivity. Qed.

Lemma keeps_format_2f v : writes_no_file (Console.format_2f v).
Proof. destruct v; intros t; reflexivity. Qed.

End Console_combinators.

#[export] Hint Resolve reads_ret reads_fail reads_say reads_input reads_call
  reads_bind reads_try keeps_ret keeps_fail keeps_say keeps_input keeps_call
  keeps_bind keeps_try reads_format_2f keeps_format_2f : console.

Ltac console_auto :=
  unfold mbind, mret, Console.io_mbind, Console.io_mret;
  repeat first
    [ apply reads_bind | apply reads_try | apply keeps_bind | apply keeps_try
    | solve [auto with console]
    | match goal with
      | |- forall _, reads_from_front _ => intro
      | |- forall _, writes_no_file _ => intro
      | |- reads_from_front (match ?x with _ => _ end) => destruct x
      | |- writes_no_file (match ?x with _ => _ end) => destruct x
      end ].

Section Console_frame.
Local Open Scope float_scope.

Variable locate : string -> exn + string.
Variable float_repr : float -> string.
Variable parse_float : string -> option float.

Lemma load_from_file_writes_no_file id :
  method_writes_no_file (load_from_file locate float_repr id).
Proof.
  intros s. rewrite load_from_file_state.
  destruct (stored locate float_repr (files s) id); reflexivity.
Qed.

Lemma calculate_interest_writes_no_file : method_writes_no_file calculate_interest.
Proof.
  intros [a out fs]. py_unfold.
  destruct a as [n nm b|n nm [|b|b] [|r|r]]; reflexivity.
Qed.

#[local] Hint Resolve load_from_file_writes_no_file
  calculate_interest_writes_no_file : console.

Lemma display_account_info_reads a :
  reads_from_front (Console.display_account_info a).
Proof. unfold Console.display_account_info. console_auto. Qed.

Lemma display_account_info_keeps a :
  writes_no_file (Console.display_account_info a).
Proof. unfold Console.display_account_info. console_auto. Qed.

Lemma create_account_reads :
  reads_from_front (Console.create_account locate float_repr parse_float).
Proof.
  unfold Console.create_account, Console.float_of_input. console_auto.
Qed.

Lemma deposit_money_reads :
  reads_from_front (Console.deposit_money locate float_repr parse_float).
Proof.
  unfold Console.deposit_money, Console.call_static, Console.float_of_input.
  console_auto.
Qed.

Lemma withdraw_money_reads :
  reads_from_front (Console.withdraw_money locate float_repr parse_float).
Proof.
  unfold Console.withdraw_money, Console.call_static, Console.float_of_input.
  console_auto.
Qed.

Lemma check_balance_reads : reads_from_front (Console.check_balance locate float_repr).
Proof.
  unfold Console.check_balance, Console.call_static. console_auto.
Qed.

Lemma calculate_interest_reads :
  reads_from_front (Console.calculate_interest locate float_repr).
Proof.
  unfold Console.calculate_interest, Console.call_static. console_auto.
Qed.

(** X16. Looking at the balance and asking for the interest write no file,
    whatever is typed and whatever the files hold. *)
Theorem looking_up_writes_no_file (t : Console.session) :
  Console.disk (snd (Console.check_balance locate float_repr t)) = Console.disk t /\
  Console.disk (snd (Console.calculate_interest locate float_repr t)) = Console.disk t.
Proof.
  split.
  - revert t. change (writes_no_file (Console.check_balance locate float_repr)).
    unfold Console.check_balance, Console.call_static. console_auto.
  - revert t. change (writes_no_file (Console.calculate_interest locate float_repr)).
    unfold Console.calculate_interest, Console.call_static. console_auto.
Qed.

End Console_frame.

Section Console_runs.
Local Open Scope float_scope.

Variable locate : string -> exn + string.
Variable float_repr : float -> string.
Variable parse_float : string -> option float.

Lemma call_run {A} a (m : py A) t r s :
  m (State a [] (Console.disk t)) = (r, s) ->
  Console.call a m t =
    (match r with
     | Return x => Console.Ok (x, self s)
     | Raise e => Console.Err (Console.Py e)
     end,
     Console.Session (Console.stdin t)
       (Console.console t ++ map Console.Method (stdout s)) (files s)).
Proof. unfold Console.call. intros ->. destruct r; reflexivity. Qed.

(** Loading from the console: the file is there, or it is not. *)
Lemma call_load_found t id d :
  stored locate float_repr (Console.disk t) id = Some d ->
  Console.call_static (load_from_file locate float_repr id) t =
    (match fst (load_from_file locate float_repr id (State Console.no_object [] (Console.disk t))) with
     | Return x => Console.Ok x
     | Raise e => Console.Err (Console.Py e)
     end, t).
Proof.
  intros Hf. unfold Console.call_static, mbind, mret, Console.io_mbind, Console.io_mret,
    Console.io_bind, Console.io_ret.
  pose proof (load_from_file_state locate float_repr (State Console.no_object [] (Console.disk t)) id)
    as Hs. simpl in Hs. rewrite Hf in Hs.
  destruct (load_from_file locate float_repr id _) as [r s] eqn:E. simpl in Hs. subst s.
  rewrite (call_run _ _ _ _ _ E). simpl. rewrite app_nil_r.
  destruct t; destruct r; reflexivity.
Qed.

Lemma call_load_missing t id :
  stored locate float_repr (Console.disk t) id = None ->
  Console.call_static (load_from_file locate float_repr id) t =
    (Console.Ok None,
     Console.Session (Console.stdin t)
       (Console.console t ++ [Console.Method Account_not_found]) (Console.disk t)).
Proof.
  intros Hf. unfold Console.call_static, mbind, mret, Console.io_mbind, Console.io_mret,
    Console.io_bind, Console.io_ret.
  rewrite (call_run _ _ _ _ _
             (load_from_file_missing locate float_repr
                (State Console.no_object [] (Console.disk t)) id Hf)).
  reflexivity.
Qed.

(** A record with the three fields loads; the account has them. *)
Lemma load_from_file_record s id (data : gmap string pyval) n nm b :
  stored locate float_repr (files s) id = Some (JObject data) ->
  data !! "account_number" = Some n -> data !! "name" = Some nm ->
  data !! "balance" = Some b ->
  exists a,
    load_from_file locate float_repr id s = (Return (Some a), s) /\
    account_number a = n /\ name a = nm /\ balance a = b /\
    (isinstance_SavingsAccount a = true <->
     data !! "type" = Some (PStr "SavingsAccount")).
Proof.
  intros Hf Hn Hnm Hb.
  destruct (py_eq (default PNone (data !! "type")) (PStr "SavingsAccount")) eqn:E.
  - assert (Ht : data !! "type" = Some (PStr "SavingsAccount")).
    { apply py_eq_str in E. destruct (data !! "type"); simpl in E; congruence. }
    eexists. split; [apply (load_from_file_savings locate float_repr s id data n nm b); assumption|].
    simpl. repeat split. intros _. exact Ht.
  - assert (Ht : data !! "type" <> Some (PStr "SavingsAccount")).
    { intros Ht. rewrite Ht in E. discriminate. }
    eexists. split; [apply (load_from_file_plain locate float_repr s id data n nm b); assumption|].
    simpl. repeat split; try discriminate. intros Ht'. destruct (Ht Ht').
Qed.

(** The record that [save_to_file] writes, by the fields of the object,
    into the file that the account number names. *)
Lemma save_to_file_record s p :
  locate (filename float_repr (account_number (self s))) = inr p ->
  exists saved : gmap string pyval,
    save_to_file locate float_repr s =
      (Return tt,
       State (self s)
         (stdout s ++ [if isinstance_SavingsAccount (self s)
                       then Savings_saved else Account_saved])
         (<[p := JObject saved]> (files s))) /\
    saved !! "account_number" = Some (account_number (self s)) /\
    saved !! "name" = Some (name (self s)) /\
    saved !! "balance" = Some (balance (self s)).
Proof.
  destruct (self s) as [n nm b|n nm b r] eqn:E; simpl; intros Hloc.
  - eexists. split;
      [rewrite (save_to_file_plain locate float_repr s n nm b E), Hloc, E; reflexivity|].
    repeat split.
  - eexists. split;
      [rewrite (save_to_file_savings locate float_repr s n nm b r E), Hloc, E; reflexivity|].
    repeat split.
Qed.

(** [save_to_file] when the file cannot be opened. *)
Lemma save_to_file_refused s e :
  locate (filename float_repr (account_number (self s))) = inl e ->
  save_to_file locate float_repr s = (Raise e, s).
Proof.
  destruct (self s) as [n nm b|n nm b r] eqn:E; simpl; intros Hloc.
  - rewrite (save_to_file_plain locate float_repr s n nm b E), Hloc. reflexivity.
  - rewrite (save_to_file_savings locate float_repr s n nm b r E), Hloc. reflexivity.
Qed.

Lemma deposit_float_run s v b :
  balance (self s) = PFloat b ->
  deposit (PFloat v) s =
    (Return tt,
     if v <=? 0 then printed (Error "Deposit amount must be positive.") s
     else printed (Deposited (PFloat v)) (with_balance (PFloat (b + v)) s)).
Proof.
  intros Hb. destruct (v <=? 0) eqn:H0.
  - apply deposit_caught, deposit_try_invalid, H0.
  - apply deposit_returned, deposit_try_valid; assumption.
Qed.

Lemma withdraw_float_run s v b :
  balance (self s) = PFloat b ->
  withdraw (PFloat v) s =
    (Return tt,
     if v <=? 0 then printed (Error "Withdrawal amount must be positive.") s
     else if b <? v then printed (Error "Insufficient balance!") s
     else printed (Withdrawn (PFloat v)) (with_balance (PFloat (b - v)) s)).
Proof.
  intros Hb. destruct (v <=? 0) eqn:H0.
  - apply withdraw_caught, withdraw_try_invalid, H0.
  - destruct (b <? v) eqn:H1.
    + apply withdraw_caught, (withdraw_try_insufficient s v b); assumption.
    + apply withdraw_returned, withdraw_try_valid; assumption.
Qed.

Lemma calculate_interest_run s n nm b r :
  self s = SavingsAccount n nm (PFloat b) (PFloat r) ->
  calculate_interest s =
    (Return (PFloat (b * r)), printed (Annual_interest (PFloat r) (PFloat (b * r))) s).
Proof. intros H. py_unfold. rewrite H. simpl. rewrite ?H. reflexivity. Qed.

Lemma account_number_set_balance v a :
  account_number (set_balance v a) = account_number a.
Proof. destruct a; reflexivity. Qed.

Lemma name_set_balance v a : name (set_balance v a) = name a.
Proof. destruct a; reflexivity. Qed.

Lemma isinstance_set_balance v a :
  isinstance_SavingsAccount (set_balance v a) = isinstance_SavingsAccount a.
Proof. destruct a; reflexivity. Qed.

End Console_runs.

Ltac io_step :=
  unfold mbind, mret, Console.io_mbind, Console.io_mret, Console.io_bind, Console.io_ret,
    Console.try_except_ValueError, Console.input, Console.say, Console.float_of_input,
    Console.fail;
  cbn [Console.stdin Console.console Console.disk fst snd].

Section Transactions.
Local Open Scope float_scope.

Variable locate : string -> exn + string.
Variable float_repr : float -> string.
Variable parse_float : string -> option float.

(** X12. [deposit_money] on a record that has the three fields, with a
    float balance, and a numeric amount: the record of the stored account
    number is written again, into the file that this account number names,
    with the balance [balance + amount], or the balance as it was when the
    amount is [<= 0]; no other file changes.  When that file cannot be
    opened, no file is written and what [open] raised ends the function
    after the line of the deposit, a ValueError apart, which the handler of
    the amount catches. *)
Theorem deposit_money_saves (t : Console.session) (acc x : string) (rest : list string)
    (data : gmap string pyval) (n nm : pyval) (b v : float) :
  Console.stdin t = acc :: x :: rest ->
  stored locate float_repr (Console.disk t) (PStr acc) = Some (JObject data) ->
  data !! "account_number" = Some n ->
  data !! "name" = Some nm ->
  data !! "balance" = Some (PFloat b) ->
  parse_float x = Some v ->
  match locate (filename float_repr n) with
  | inr p =>
      exists (saved : gmap string pyval) (saved_line : line),
        Console.deposit_money locate float_repr parse_float t =
          (Console.Ok tt,
           Console.Session rest
             (Console.console t ++
                [Console.Asked Console.Ask_account_number;
                 Console.Asked Console.Ask_deposit_amount;
                 Console.Method (if v <=? 0 then Error "Deposit amount must be positive."
                             else Deposited (PFloat v));
                 Console.Method saved_line])
             (<[p := JObject saved]> (Console.disk t))) /\
        (saved_line = Account_saved \/ saved_line = Savings_saved) /\
        saved !! "account_number" = Some n /\
        saved !! "name" = Some nm /\
        saved !! "balance" = Some (PFloat (if v <=? 0 then b else b + v))
  | inl e =>
      Console.deposit_money locate float_repr parse_float t =
        (match e with
         | ValueError _ => Console.Ok tt
         | _ => Console.Err (Console.Py e)
         end,
         Console.Session rest
           (Console.console t ++
              [Console.Asked Console.Ask_account_number;
               Console.Asked Console.Ask_deposit_amount;
               Console.Method (if v <=? 0 then Error "Deposit amount must be positive."
                             else Deposited (PFloat v))] ++
              match e with
              | ValueError _ => [Console.Not_numeric]
              | _ => []
              end)
           (Console.disk t))
  end.
Proof.
  intros Hin Hf Hn Hnm Hb Hparse.
  destruct t as [inp con dsk]; simpl in *; subst inp.
  destruct (load_from_file_record locate float_repr (State Console.no_object [] dsk)
              (PStr acc) data n nm (PFloat b) Hf Hn Hnm Hb)
    as (a & Hload & Ha1 & Ha2 & Ha3 & _).
  pose proof (deposit_float_run (State a [] dsk) v b Ha3) as Hrun.
  set (a' := if v <=? 0 then a else set_balance (PFloat (b + v)) a).
  assert (Ha' : self (if v <=? 0
                      then printed (Error "Deposit amount must be positive.")
                             (State a [] dsk)
                      else printed (Deposited (PFloat v))
                             (with_balance (PFloat (b + v)) (State a [] dsk))) = a')
    by (subst a'; destruct (v <=? 0); reflexivity).
  assert (Hfs : files (if v <=? 0
                      then printed (Error "Deposit amount must be positive.")
                             (State a [] dsk)
                      else printed (Deposited (PFloat v))
                             (with_balance (PFloat (b + v)) (State a [] dsk))) = dsk)
    by (destruct (v <=? 0); reflexivity).
  assert (E1 : account_number a' = n)
    by (subst a'; destruct (v <=? 0); rewrite ?account_number_set_balance; exact Ha1).
  assert (E2 : name a' = nm)
    by (subst a'; destruct (v <=? 0); rewrite ?name_set_balance; exact Ha2).
  assert (E3 : balance a' = PFloat (if v <=? 0 then b else b + v))
    by (subst a'; destruct (v <=? 0); rewrite ?balance_set_balance;
        first [exact Ha3|reflexivity]).
  destruct (locate (filename float_repr n)) as [e|p] eqn:Hloc.
  - assert (Hsave : save_to_file locate float_repr (State a' [] dsk) =
                      (Raise e, State a' [] dsk))
      by (apply save_to_file_refused; simpl; rewrite E1; exact Hloc).
    unfold Console.deposit_money. io_step.
    rewrite (call_load_found locate float_repr _ (PStr acc) (JObject data)) by exact Hf.
    cbn [Console.stdin Console.console Console.disk fst snd]. rewrite Hload.
    cbn [Console.stdin Console.console Console.disk fst snd]. rewrite Hparse. io_step.
    erewrite call_run by (cbn [Console.disk]; exact Hrun).
    cbn [Console.stdin Console.console Console.disk fst snd].
    rewrite Ha'.
    erewrite call_run by (cbn [Console.disk]; rewrite Hfs; exact Hsave).
    cbn [Console.stdin Console.console Console.disk fst snd self stdout files].
    rewrite <- !app_assoc.
    destruct e; destruct (v <=? 0); reflexivity.
  - destruct (save_to_file_record locate float_repr (State a' [] dsk) p)
      as (saved & Hsave & Hs1 & Hs2 & Hs3); [simpl; rewrite E1; exact Hloc|].
    exists saved, (if isinstance_SavingsAccount a' then Savings_saved else Account_saved).
    unfold Console.deposit_money. io_step.
    rewrite (call_load_found locate float_repr _ (PStr acc) (JObject data)) by exact Hf.
    cbn [Console.stdin Console.console Console.disk fst snd]. rewrite Hload.
    cbn [Console.stdin Console.console Console.disk fst snd]. rewrite Hparse. io_step.
    erewrite call_run by (cbn [Console.disk]; exact Hrun).
    cbn [Console.stdin Console.console Console.disk fst snd].
    rewrite Ha'.
    erewrite call_run by (cbn [Console.disk]; rewrite Hfs; exact Hsave).
    cbn [Console.stdin Console.console Console.disk fst snd self stdout files].
    simpl in Hs1, Hs2, Hs3.
    rewrite E1 in Hs1. rewrite E2 in Hs2. rewrite E3 in Hs3.
    split; [|split; [destruct (isinstance_SavingsAccount a'); auto|auto]].
    rewrite <- !app_assoc. destruct (v <=? 0); reflexivity.
Qed.

(** X13. [withdraw_money] on a record that has the three fields, with a
    float balance, and a numeric amount: the record of the stored account
    number is written again, into the file that this account number names,
    with the balance [balance - amount], or the balance as it was when the
    amount is [<= 0] or above the balance; the refusal is printed, then the
    saving is; no other file changes.  When that file cannot be opened, no
    file is written and what [open] raised ends the function after the line
    of the withdrawal, a ValueError apart, which the handler of the amount
    catches. *)
Theorem withdraw_money_saves (t : Console.session) (acc x : string) (rest : list string)
    (data : gmap string pyval) (n nm : pyval) (b v : float) :
  Console.stdin t = acc :: x :: rest ->
  stored locate float_repr (Console.disk t) (PStr acc) = Some (JObject data) ->
  data !! "account_number" = Some n ->
  data !! "name" = Some nm ->
  data !! "balance" = Some (PFloat b) ->
  parse_float x = Some v ->
  match locate (filename float_repr n) with
  | inr p =>
      exists (saved : gmap string pyval) (saved_line : line),
        Console.withdraw_money locate float_repr parse_float t =
          (Console.Ok tt,
           Console.Session rest
             (Console.console t ++
                [Console.Asked Console.Ask_account_number;
                 Console.Asked Console.Ask_withdraw_amount;
                 Console.Method (if v <=? 0 then Error "Withdrawal amount must be positive."
                             else if b <? v then Error "Insufficient balance!"
                             else Withdrawn (PFloat v));
                 Console.Method saved_line])
             (<[p := JObject saved]> (Console.disk t))) /\
        (saved_line = Account_saved \/ saved_line = Savings_saved) /\
        saved !! "account_number" = Some n /\
        saved !! "name" = Some nm /\
        saved !! "balance" = Some (PFloat (if v <=? 0 then b else if b <? v then b else b - v))
  | inl e =>
      Console.withdraw_money locate float_repr parse_float t =
        (match e with
         | ValueError _ => Console.Ok tt
         | _ => Console.Err (Console.Py e)
         end,
         Console.Session rest
           (Console.console t ++
              [Console.Asked Console.Ask_account_number;
               Console.Asked Console.Ask_withdraw_amount;
               Console.Method (if v <=? 0 then Error "Withdrawal amount must be positive."
                             else if b <? v then Error "Insufficient balance!"
                             else Withdrawn (PFloat v))] ++
              match e with
              | ValueError _ => [Console.Not_numeric]
              | _ => []
              end)
           (Console.disk t))
  end.
Proof.
  intros Hin Hf Hn Hnm Hb Hparse.
  destruct t as [inp con dsk]; simpl in *; subst inp.
  destruct (load_from_file_record locate float_repr (State Console.no_object [] dsk)
              (PStr acc) data n nm (PFloat b) Hf Hn Hnm Hb)
    as (a & Hload & Ha1 & Ha2 & Ha3 & _).
  pose proof (withdraw_float_run (State a [] dsk) v b Ha3) as Hrun.
  set (a' := if v <=? 0 then a else if b <? v then a
             else set_balance (PFloat (b - v)) a).
  assert (Ha' : self (if v <=? 0
                      then printed (Error "Withdrawal amount must be positive.")
                             (State a [] dsk)
                      else if b <? v
                      then printed (Error "Insufficient balance!") (State a [] dsk)
                      else printed (Withdrawn (PFloat v))
                             (with_balance (PFloat (b - v)) (State a [] dsk))) = a')
    by (subst a'; destruct (v <=? 0), (b <? v); reflexivity).
  assert (Hfs : files (if v <=? 0
                      then printed (Error "Withdrawal amount must be positive.")
                             (State a [] dsk)
                      else if b <? v
                      then printed (Error "Insufficient balance!") (State a [] dsk)
                      else printed (Withdrawn (PFloat v))
                             (with_balance (PFloat (b - v)) (State a [] dsk))) = dsk)
    by (destruct (v <=? 0), (b <? v); reflexivity).
  assert (E1 : account_number a' = n)
    by (subst a'; destruct (v <=? 0), (b <? v); rewrite ?account_number_set_balance; exact Ha1).
  assert (E2 : name a' = nm)
    by (subst a'; destruct (v <=? 0), (b <? v); rewrite ?name_set_balance; exact Ha2).
  assert (E3 : balance a' = PFloat (if v <=? 0 then b else if b <? v then b else b - v))
    by (subst a'; destruct (v <=? 0), (b <? v); rewrite ?balance_set_balance;
        first [exact Ha3|reflexivity]).
  destruct (locate (filename float_repr n)) as [e|p] eqn:Hloc.
  - assert (Hsave : save_to_file locate float_repr (State a' [] dsk) =
                      (Raise e, State a' [] dsk))
      by (apply save_to_file_refused; simpl; rewrite E1; exact Hloc).
    unfold Console.withdraw_money. io_step.
    rewrite (call_load_found locate float_repr _ (PStr acc) (JObject data)) by exact Hf.
    cbn [Console.stdin Console.console Console.disk fst snd]. rewrite Hload.
    cbn [Console.stdin Console.console Console.disk fst snd]. rewrite Hparse. io_step.
    erewrite call_run by (cbn [Console.disk]; exact Hrun).
    cbn [Console.stdin Console.console Console.disk fst snd].
    rewrite Ha'.
    erewrite call_run by (cbn [Console.disk]; rewrite Hfs; exact Hsave).
    cbn [Console.stdin Console.console Console.disk fst snd self stdout files].
    rewrite <- !app_assoc.
    destruct e; destruct (v <=? 0), (b <? v); reflexivity.
  - destruct (save_to_file_record locate float_repr (State a' [] dsk) p)
      as (saved & Hsave & Hs1 & Hs2 & Hs3); [simpl; rewrite E1; exact Hloc|].
    exists saved, (if isinstance_SavingsAccount a' then Savings_saved else Account_saved).
    unfold Console.withdraw_money. io_step.
    rewrite (call_load_found locate float_repr _ (PStr acc) (JObject data)) by exact Hf.
    cbn [Console.stdin Console.console Console.disk fst snd]. rewrite Hload.
    cbn [Console.stdin Console.console Console.disk fst snd]. rewrite Hparse. io_step.
    erewrite call_run by (cbn [Console.disk]; exact Hrun).
    cbn [Console.stdin Console.console Console.disk fst snd].
    rewrite Ha'.
    erewrite call_run by (cbn [Console.disk]; rewrite Hfs; exact Hsave).
    cbn [Console.stdin Console.console Console.disk fst snd self stdout files].
    simpl in Hs1, Hs2, Hs3.
    rewrite E1 in Hs1. rewrite E2 in Hs2. rewrite E3 in Hs3.
    split; [|split; [destruct (isinstance_SavingsAccount a'); auto|auto]].
    rewrite <- !app_assoc. destruct (v <=? 0), (b <? v); reflexivity.
Qed.

End Transactions.

Section Menu_functions.
Local Open Scope float_scope.

Variable locate : string -> exn + string.
Variable float_repr : float -> string.
Variable parse_float : string -> option float.

(** X14. When there is no file for the account number typed,
    [deposit_money] and [withdraw_money] print "Account not found!" and
    return: the amount is not asked for and no file is written. *)
Theorem money_no_account (t : Console.session) (acc : string) (rest : list string) :
  Console.stdin t = acc :: rest ->
  stored locate float_repr (Console.disk t) (PStr acc) = None ->
  Console.deposit_money locate float_repr parse_float t =
    (Console.Ok tt,
     Console.Session rest
       (Console.console t ++
          [Console.Asked Console.Ask_account_number; Console.Method Account_not_found])
       (Console.disk t)) /\
  Console.withdraw_money locate float_repr parse_float t =
    (Console.Ok tt,
     Console.Session rest
       (Console.console t ++
          [Console.Asked Console.Ask_account_number; Console.Method Account_not_found])
       (Console.disk t)).
Proof.
  intros Hin Hf. destruct t as [inp con dsk]; simpl in *; subst inp.
  split.
  - unfold Console.deposit_money. io_step.
    rewrite (call_load_missing locate float_repr _ (PStr acc)) by exact Hf.
    cbn [Console.stdin Console.console Console.disk fst snd].
    rewrite <- app_assoc. reflexivity.
  - unfold Console.withdraw_money. io_step.
    rewrite (call_load_missing locate float_repr _ (PStr acc)) by exact Hf.
    cbn [Console.stdin Console.console Console.disk fst snd].
    rewrite <- app_assoc. reflexivity.
Qed.

(** X15. When the amount typed is not a number, [deposit_money] and
    [withdraw_money] on a record that has the three fields print "Please
    enter a valid numeric amount!" and return, and no file is written. *)
Theorem money_not_numeric (t : Console.session) (acc x : string) (rest : list string)
    (data : gmap string pyval) (n nm b : pyval) :
  Console.stdin t = acc :: x :: rest ->
  stored locate float_repr (Console.disk t) (PStr acc) = Some (JObject data) ->
  data !! "account_number" = Some n ->
  data !! "name" = Some nm ->
  data !! "balance" = Some b ->
  parse_float x = None ->
  Console.deposit_money locate float_repr parse_float t =
    (Console.Ok tt,
     Console.Session rest
       (Console.console t ++
          [Console.Asked Console.Ask_account_number;
           Console.Asked Console.Ask_deposit_amount; Console.Not_numeric])
       (Console.disk t)) /\
  Console.withdraw_money locate float_repr parse_float t =
    (Console.Ok tt,
     Console.Session rest
       (Console.console t ++
          [Console.Asked Console.Ask_account_number;
           Console.Asked Console.Ask_withdraw_amount; Console.Not_numeric])
       (Console.disk t)).
Proof.
  intros Hin Hf Hn Hnm Hb Hparse. destruct t as [inp con dsk]; simpl in *; subst inp.
  destruct (load_from_file_record locate float_repr (State Console.no_object [] dsk)
              (PStr acc) data n nm b Hf Hn Hnm Hb) as (a & Hload & _).
  split.
  - unfold Console.deposit_money. io_step.
    rewrite (call_load_found locate float_repr _ (PStr acc) (JObject data)) by exact Hf.
    cbn [Console.stdin Console.console Console.disk fst snd]. rewrite Hload.
    cbn [Console.stdin Console.console Console.disk fst snd]. rewrite Hparse. io_step.
    rewrite <- !app_assoc. reflexivity.
  - unfold Console.withdraw_money. io_step.
    rewrite (call_load_found locate float_repr _ (PStr acc) (JObject data)) by exact Hf.
    cbn [Console.stdin Console.console Console.disk fst snd]. rewrite Hload.
    cbn [Console.stdin Console.console Console.disk fst snd]. rewrite Hparse. io_step.
    rewrite <- !app_assoc. reflexivity.
Qed.

(** X9. When the initial deposit typed is not a number, [create_account]
    prints "Please enter a valid numeric amount!" and returns: the type of
    account is not asked for and no file is written. *)
Theorem create_account_not_numeric (t : Console.session) (acc nm x : string)
    (rest : list string) :
  Console.stdin t = acc :: nm :: x :: rest ->
  parse_float x = None ->
  Console.create_account locate float_repr parse_float t =
    (Console.Ok tt,
     Console.Session rest
       (Console.console t ++
          [Console.Create_banner; Console.Asked Console.Ask_new_account_number;
           Console.Asked Console.Ask_holder_name;
           Console.Asked Console.Ask_initial_deposit; Console.Not_numeric])
       (Console.disk t)).
Proof.
  intros Hin Hparse. destruct t as [inp con dsk]; simpl in *; subst inp.
  unfold Console.create_account. io_step. rewrite Hparse. io_step.
  rewrite <- !app_assoc. reflexivity.
Qed.

(** X10. With four lines typed and a numeric initial deposit: when the
    file of the account number can be opened, [create_account] returns,
    whatever the number is and whatever file of that account number there
    was; loading the account number then gives the new account, a
    [SavingsAccount] at rate 0.05 when the type typed is "2" and a
    [BankAccount] for any other; no other file changes.  When the file
    cannot be opened, no file is written, the creation is not printed, and
    what [open] raised ends the function, a ValueError apart, which the
    handler of the amount catches. *)
Theorem create_account_then_load (t : Console.session) (acc nm x ty : string)
    (rest : list string) (v : float) :
  Console.stdin t = acc :: nm :: x :: ty :: rest ->
  parse_float x = Some v ->
  match locate (filename float_repr (PStr acc)) with
  | inr p =>
      fst (Console.create_account locate float_repr parse_float t) = Console.Ok tt /\
      Console.stdin (snd (Console.create_account locate float_repr parse_float t)) = rest /\
      (forall q, q <> p ->
         Console.disk (snd (Console.create_account locate float_repr parse_float t)) !! q =
         Console.disk t !! q) /\
      (forall s,
         files s =
           Console.disk (snd (Console.create_account locate float_repr parse_float t)) ->
         fst (load_from_file locate float_repr (PStr acc) s) =
         Return (Some (if String.eqb ty "2"
                       then SavingsAccount (PStr acc) (PStr nm) (PFloat v) (PFloat 0.05)
                       else BankAccount (PStr acc) (PStr nm) (PFloat v))))
  | inl e =>
      Console.create_account locate float_repr parse_float t =
        (match e with
         | ValueError _ => Console.Ok tt
         | _ => Console.Err (Console.Py e)
         end,
         Console.Session rest
           (Console.console t ++
              [Console.Create_banner; Console.Asked Console.Ask_new_account_number;
               Console.Asked Console.Ask_holder_name;
               Console.Asked Console.Ask_initial_deposit; Console.Account_types;
               Console.Asked Console.Ask_account_type] ++
              match e with
              | ValueError _ => [Console.Not_numeric]
              | _ => []
              end)
           (Console.disk t))
  end.
Proof.
  intros Hin Hparse. destruct t as [inp con dsk]; simpl in *; subst inp.
  destruct (locate (filename float_repr (PStr acc))) as [e|p] eqn:Hloc.
  - unfold Console.create_account. io_step. rewrite Hparse. io_step.
    erewrite call_run by (apply save_to_file_refused; destruct (String.eqb ty "2"); exact Hloc).
    cbn [Console.stdin Console.console Console.disk fst snd self stdout files].
    rewrite <- !app_assoc. destruct e; reflexivity.
  - unfold Console.create_account. io_step. rewrite Hparse. io_step.
    destruct (String.eqb ty "2").
    + erewrite call_run
        by (erewrite save_to_file_savings by reflexivity; rewrite Hloc; reflexivity).
      cbn [Console.stdin Console.console Console.disk fst snd self stdout files].
      repeat split.
      * intros q Hq. apply lookup_insert_ne. congruence.
      * intros s Hs. simpl in Hs.
        match type of Hs with
        | _ = <[_ := JObject ?d]> _ =>
            rewrite (load_from_file_savings locate float_repr s (PStr acc) d
                       (PStr acc) (PStr nm) (PFloat v))
        end; [reflexivity|rewrite Hs; apply stored_insert_eq, Hloc|reflexivity..].
    + erewrite call_run
        by (erewrite save_to_file_plain by reflexivity; rewrite Hloc; reflexivity).
      cbn [Console.stdin Console.console Console.disk fst snd self stdout files].
      repeat split.
      * intros q Hq. apply lookup_insert_ne. congruence.
      * intros s Hs. simpl in Hs.
        match type of Hs with
        | _ = <[_ := JObject ?d]> _ =>
            rewrite (load_from_file_plain locate float_repr s (PStr acc) d
                       (PStr acc) (PStr nm) (PFloat v))
        end; [reflexivity|rewrite Hs; apply stored_insert_eq, Hloc|discriminate|reflexivity..].
Qed.

(** X11. [create_account] writes a file only when four lines were read and
    the third is a number: in every other case the files are as before. *)
Theorem create_account_writes_only_when_complete (t : Console.session) :
  Console.disk (snd (Console.create_account locate float_repr parse_float t)) = Console.disk t \/
  exists acc nm x ty rest v,
    Console.stdin t = acc :: nm :: x :: ty :: rest /\ parse_float x = Some v.
Proof.
  destruct t as [[|acc [|nm [|x [|ty rest]]]] con dsk];
    try (left; reflexivity).
  - destruct (parse_float x) as [v|] eqn:Hparse.
    + left. unfold Console.create_account. io_step. rewrite Hparse. reflexivity.
    + left. unfold Console.create_account. io_step. rewrite Hparse. reflexivity.
  - destruct (parse_float x) as [v|] eqn:Hparse.
    + right. exists acc, nm, x, ty, rest, v. split; [reflexivity|exact Hparse].
    + left. unfold Console.create_account. io_step. rewrite Hparse. reflexivity.
Qed.

End Menu_functions.

Section Looking_up.
Local Open Scope float_scope.

Variable locate : string -> exn + string.
Variable float_repr : float -> string.

(** X8. [check_balance] on a record that has the three fields: with a float
    balance the five lines of the details are printed; with a balance that
    is [None] or a string, the first three are, then formatting the balance
    raises TypeError or ValueError, which nothing catches.  No file is
    written. *)
Theorem check_balance_details (t : Console.session) (acc : string) (rest : list string)
    (data : gmap string pyval) (n nm b : pyval) :
  Console.stdin t = acc :: rest ->
  stored locate float_repr (Console.disk t) (PStr acc) = Some (JObject data) ->
  data !! "account_number" = Some n ->
  data !! "name" = Some nm ->
  data !! "balance" = Some b ->
  Console.check_balance locate float_repr t =
    match b with
    | PFloat x =>
        (Console.Ok tt,
         Console.Session rest
           (Console.console t ++
              [Console.Asked Console.Ask_account_number; Console.Details_header;
               Console.Details_number n; Console.Details_holder nm;
               Console.Details_balance x; Console.Details_footer])
           (Console.disk t))
    | PNone =>
        (Console.Err (Console.Py TypeError),
         Console.Session rest
           (Console.console t ++
              [Console.Asked Console.Ask_account_number; Console.Details_header;
               Console.Details_number n; Console.Details_holder nm])
           (Console.disk t))
    | PStr _ =>
        (Console.Err
           (Console.Py (ValueError "Unknown format code 'f' for object of type 'str'")),
         Console.Session rest
           (Console.console t ++
              [Console.Asked Console.Ask_account_number; Console.Details_header;
               Console.Details_number n; Console.Details_holder nm])
           (Console.disk t))
    end.
Proof.
  intros Hin Hf Hn Hnm Hb. destruct t as [inp con dsk]; simpl in *; subst inp.
  destruct (load_from_file_record locate float_repr (State Console.no_object [] dsk)
              (PStr acc) data n nm b Hf Hn Hnm Hb) as (a & Hload & Ha1 & Ha2 & Ha3 & _).
  unfold Console.check_balance. io_step.
  rewrite (call_load_found locate float_repr _ (PStr acc) (JObject data)) by exact Hf.
  cbn [Console.stdin Console.console Console.disk fst snd]. rewrite Hload.
  cbn [Console.stdin Console.console Console.disk fst snd].
  unfold Console.display_account_info. io_step. rewrite Ha1, Ha2, Ha3.
  destruct b as [|x|y]; unfold Console.format_2f; io_step;
    rewrite <- !app_assoc; reflexivity.
Qed.

(** X17. The menu's [calculate_interest] calls the method for a savings
    record only: where there is no file, or the record is not of type
    "SavingsAccount", it prints that interest is for savings accounts and
    returns; for a savings record with a float balance and rate it prints
    the interest [balance * rate], the rate being 0.05 when the record has
    none. *)
Theorem interest_for_savings_only (t : Console.session) (acc : string)
    (rest : list string) :
  Console.stdin t = acc :: rest ->
  (stored locate float_repr (Console.disk t) (PStr acc) = None ->
   Console.calculate_interest locate float_repr t =
     (Console.Ok tt,
      Console.Session rest
        (Console.console t ++
           [Console.Asked Console.Ask_account_number; Console.Method Account_not_found;
            Console.Savings_only])
        (Console.disk t))) /\
  (forall (data : gmap string pyval) n nm b,
     stored locate float_repr (Console.disk t) (PStr acc) = Some (JObject data) ->
     data !! "account_number" = Some n -> data !! "name" = Some nm ->
     data !! "balance" = Some b ->
     (data !! "type" <> Some (PStr "SavingsAccount") ->
      Console.calculate_interest locate float_repr t =
        (Console.Ok tt,
         Console.Session rest
           (Console.console t ++
              [Console.Asked Console.Ask_account_number; Console.Savings_only])
           (Console.disk t))) /\
     (forall x r,
        data !! "type" = Some (PStr "SavingsAccount") ->
        b = PFloat x ->
        default (PFloat 0.05) (data !! "interest_rate") = PFloat r ->
        Console.calculate_interest locate float_repr t =
          (Console.Ok tt,
           Console.Session rest
             (Console.console t ++
                [Console.Asked Console.Ask_account_number;
                 Console.Method (Annual_interest (PFloat r) (PFloat (x * r)))])
             (Console.disk t)))).
Proof.
  intros Hin. destruct t as [inp con dsk]; simpl in *; subst inp.
  split; [|intros data n nm b Hf Hn Hnm Hb; split].
  - intros Hf. unfold Console.calculate_interest. io_step.
    rewrite (call_load_missing locate float_repr _ (PStr acc)) by exact Hf.
    cbn [Console.stdin Console.console Console.disk fst snd].
    rewrite <- !app_assoc. reflexivity.
  - intros Ht. unfold Console.calculate_interest. io_step.
    rewrite (call_load_found locate float_repr _ (PStr acc) (JObject data)) by exact Hf.
    cbn [Console.stdin Console.console Console.disk fst snd].
    rewrite (load_from_file_plain locate float_repr (State Console.no_object [] dsk)
               (PStr acc) data n nm b Hf Ht Hn Hnm Hb).
    cbn [Console.stdin Console.console Console.disk fst snd isinstance_SavingsAccount].
    rewrite <- !app_assoc. reflexivity.
  - intros x r Ht -> Hr. unfold Console.calculate_interest. io_step.
    rewrite (call_load_found locate float_repr _ (PStr acc) (JObject data)) by exact Hf.
    cbn [Console.stdin Console.console Console.disk fst snd].
    rewrite (load_from_file_savings locate float_repr (State Console.no_object [] dsk)
               (PStr acc) data n nm (PFloat x) Hf Ht Hn Hnm Hb), Hr.
    cbn [Console.stdin Console.console Console.disk fst snd isinstance_SavingsAccount].
    erewrite call_run by (apply (calculate_interest_run _ n nm x r); reflexivity).
    cbn [Console.stdin Console.console Console.disk fst snd self stdout files].
    rewrite <- !app_assoc. reflexivity.
Qed.

End Looking_up.

Section Menu_loop.

Variable locate : string -> exn + string.
Variable float_repr : float -> string.
Variable parse_float : string -> option float.

(** After a function of the menu, the loop goes on with an input that is
    not longer. *)
Lemma then_loop_ext (cmd : Console.io unit) (k k' : Console.io (option unit)) t :
  reads_from_front cmd ->
  (forall t', length (Console.stdin t') <= length (Console.stdin t) -> k t' = k' t') ->
  Console.io_bind cmd (fun _ => k) t = Console.io_bind cmd (fun _ => k') t.
Proof.
  intros Hcmd Hk. unfold Console.io_bind.
  specialize (Hcmd t). destruct (cmd t) as [[u|e] t']; simpl in *; [|reflexivity].
  apply Hk, suffix_length, Hcmd.
Qed.

Lemma then_loop_ended (cmd : Console.io unit) (k : Console.io (option unit)) t :
  reads_from_front cmd ->
  (forall t', length (Console.stdin t') <= length (Console.stdin t) ->
              loop_ended (Console.stdin t') (k t')) ->
  loop_ended (Console.stdin t) (Console.io_bind cmd (fun _ => k) t).
Proof.
  intros Hcmd Hk. unfold Console.io_bind.
  specialize (Hcmd t). destruct (cmd t) as [[u|e] t']; simpl in *.
  - destruct (Hk t' (suffix_length _ _ Hcmd)) as [(H1 & H2 & H3)|H]; [left|right; exact H].
    repeat split; try assumption.
    destruct Hcmd as [used ->]. apply elem_of_app. right. exact H2.
  - right. exists e. reflexivity.
Qed.

Lemma loop_ended_cons c rest r : loop_ended rest r -> loop_ended (c :: rest) r.
Proof.
  intros [(H1 & H2 & H3)|H]; [left|right; exact H].
  repeat split; try assumption. apply elem_of_cons. right. exact H2.
Qed.

Lemma main_ended fuel t :
  length (Console.stdin t) < fuel ->
  loop_ended (Console.stdin t) (Console.main locate float_repr parse_float fuel t).
Proof.
  revert t. induction fuel as [|fuel IH]; intros [inp con dsk] Hlen; simpl in Hlen; [lia|].
  cbn [Console.main]. io_step.
  destruct inp as [|c rest]; [right; eexists; reflexivity|].
  cbn [Console.stdin Console.console Console.disk fst snd].
  simpl in Hlen.
  assert (Hk : forall t', length (Console.stdin t') <= length rest ->
                 loop_ended (Console.stdin t')
                   (Console.main locate float_repr parse_float fuel t'))
    by (intros t' Hle; apply IH; lia).
  destruct (String.eqb c "1");
    [apply loop_ended_cons,
       (then_loop_ended (Console.create_account locate float_repr parse_float));
     [apply create_account_reads|exact Hk]|].
  destruct (String.eqb c "2");
    [apply loop_ended_cons,
       (then_loop_ended (Console.deposit_money locate float_repr parse_float));
     [apply deposit_money_reads|exact Hk]|].
  destruct (String.eqb c "3");
    [apply loop_ended_cons,
       (then_loop_ended (Console.withdraw_money locate float_repr parse_float));
     [apply withdraw_money_reads|exact Hk]|].
  destruct (String.eqb c "4");
    [apply loop_ended_cons, (then_loop_ended (Console.check_balance locate float_repr));
     [apply check_balance_reads|exact Hk]|].
  destruct (String.eqb c "5");
    [apply loop_ended_cons, (then_loop_ended (Console.calculate_interest locate float_repr));
     [apply calculate_interest_reads|exact Hk]|].
  destruct (String.eqb c "6") eqn:E6.
  - left. apply String.eqb_eq in E6. subst c. cbn.
    repeat split; [apply elem_of_cons; left; reflexivity|apply last_snoc].
  - apply loop_ended_cons, (then_loop_ended (Console.say Console.Invalid_choice));
      [apply reads_say|exact Hk].
Qed.

Lemma main_fuel fuel fuel' t :
  length (Console.stdin t) < fuel -> length (Console.stdin t) < fuel' ->
  Console.main locate float_repr parse_float fuel t =
  Console.main locate float_repr parse_float fuel' t.
Proof.
  revert fuel' t. induction fuel as [|fuel IH]; intros [|fuel'] [inp con dsk] Hlen Hlen';
    simpl in Hlen, Hlen'; try lia.
  cbn [Console.main]. io_step.
  destruct inp as [|c rest]; [reflexivity|].
  cbn [Console.stdin Console.console Console.disk fst snd].
  simpl in Hlen, Hlen'.
  assert (Hk : forall t', length (Console.stdin t') <= length rest ->
                 Console.main locate float_repr parse_float fuel t' =
                 Console.main locate float_repr parse_float fuel' t')
    by (intros t' Hle; apply IH; lia).
  destruct (String.eqb c "1");
    [apply (then_loop_ext (Console.create_account locate float_repr parse_float));
     [apply create_account_reads|exact Hk]|].
  destruct (String.eqb c "2");
    [apply (then_loop_ext (Console.deposit_money locate float_repr parse_float));
     [apply deposit_money_reads|exact Hk]|].
  destruct (String.eqb c "3");
    [apply (then_loop_ext (Console.withdraw_money locate float_repr parse_float));
     [apply withdraw_money_reads|exact Hk]|].
  destruct (String.eqb c "4");
    [apply (then_loop_ext (Console.check_balance locate float_repr));
     [apply check_balance_reads|exact Hk]|].
  destruct (String.eqb c "5");
    [apply (then_loop_ext (Console.calculate_interest locate float_repr));
     [apply calculate_interest_reads|exact Hk]|].
  destruct (String.eqb c "6"); [reflexivity|].
  apply (then_loop_ext (Console.say Console.Invalid_choice)); [apply reads_say|exact Hk].
Qed.

(** X18. On an input of finitely many lines [main] ends, and how does not
    depend on the fuel once it exceeds the number of lines: it returns only
    after reading the choice "6", its last line being the goodbye, and
    otherwise an exception ends it ([EOFError] when the input runs out, or
    what a function of the menu raised). *)
Theorem main_ends (fuel : nat) (t : Console.session) :
  length (Console.stdin t) < fuel ->
  (fst (Console.main locate float_repr parse_float fuel t) = Console.Ok (Some tt) /\
   "6" ∈ Console.stdin t /\
   last (Console.console (snd (Console.main locate float_repr parse_float fuel t))) =
     Some Console.Goodbye \/
   exists e, fst (Console.main locate float_repr parse_float fuel t) = Console.Err e) /\
  (forall fuel', length (Console.stdin t) < fuel' ->
     Console.main locate float_repr parse_float fuel' t =
     Console.main locate float_repr parse_float fuel t).
Proof.
  intros Hlen. split.
  - exact (main_ended fuel t Hlen).
  - intros fuel' Hlen'. apply main_fuel; assumption.
Qed.

(** X19. A record that lacks "account_number", "name" or "balance" ends
    the program as soon as its account number is typed after one of the
    choices "2" to "5": [load_from_file] raises [KeyError], no function of
    the menu catches it, and no file is written. *)
Theorem main_damaged_record (fuel : nat) (t : Console.session) (c acc : string)
    (rest : list string) (data : gmap string pyval) :
  Console.stdin t = c :: acc :: rest ->
  c ∈ ["2"; "3"; "4"; "5"] ->
  stored locate float_repr (Console.disk t) (PStr acc) = Some (JObject data) ->
  data !! "account_number" = None \/ data !! "name" = None \/ data !! "balance" = None ->
  exists key,
    Console.main locate float_repr parse_float (S fuel) t =
      (Console.Err (Console.Py (KeyError key)),
       Console.Session rest
         (Console.console t ++
            [Console.Menu; Console.Asked Console.Ask_choice;
             Console.Asked Console.Ask_account_number])
         (Console.disk t)) /\
    data !! key = None.
Proof.
  intros Hin Hc Hf Hkeys. destruct t as [inp con dsk]; simpl in *; subst inp.
  destruct (load_from_file_KeyError locate float_repr (State Console.no_object [] dsk)
              (PStr acc) data Hf Hkeys) as (key & Hload & Hkey & _).
  exists key. split; [|exact Hkey].
  cbn [Console.main]. io_step.
  repeat (apply elem_of_cons in Hc as [->|Hc]); [| | | |inversion Hc];
    cbn [String.eqb Ascii.eqb Bool.eqb];
    unfold Console.deposit_money, Console.withdraw_money, Console.check_balance,
      Console.calculate_interest; io_step;
    rewrite (call_load_found locate float_repr _ (PStr acc) (JObject data)) by exact Hf;
    cbn [Console.stdin Console.console Console.disk fst snd]; rewrite Hload;
    cbn [Console.stdin Console.console Console.disk fst snd];
    rewrite <- !app_assoc; reflexivity.
Qed.

End Menu_loop.

(** * The further properties on examples *)

Section Further_examples.
Local Open Scope float_scope.

(** An account number that names a file in a directory that does not
    exist: [save_to_file] raises, [create_account] with it. *)
Example save_to_file_no_directory :
  save_to_file working_directory repr_unused
    (fresh (BankAccount (PStr "a/b") (PStr "Asha") (PFloat 100))) =
    (Raise FileNotFoundError, fresh (BankAccount (PStr "a/b") (PStr "Asha") (PFloat 100))).
Proof. reflexivity. Qed.

Example create_account_no_directory :
  Console.create_account working_directory repr_unused parse_examples
    (Console.Session ["a/b"; "Asha"; "100"; "1"] [] ∅) =
    (Console.Err (Console.Py FileNotFoundError),
     Console.Session []
       [Console.Create_banner; Console.Asked Console.Ask_new_account_number;
        Console.Asked Console.Ask_holder_name;
        Console.Asked Console.Ask_initial_deposit; Console.Account_types;
        Console.Asked Console.Ask_account_type]
       ∅).
Proof. reflexivity. Qed.

(** Two account numbers that name one file: saving the account "1001"
    changes what loading "./1001" gives. *)
Example save_to_file_same_file :
  fst (load_from_file working_directory repr_unused (PStr "./1001") (fresh asha)) =
    Return None /\
  fst (load_from_file working_directory repr_unused (PStr "./1001")
         (snd (save_to_file working_directory repr_unused (fresh asha)))) =
    Return (Some asha).
Proof. split; reflexivity. Qed.

Lemma save_to_file_keeps_other_accounts_witness :
  fst (load_from_file working_directory repr_unused (PStr "1003")
         (snd (save_to_file working_directory repr_unused
                 (with_file "1003.json" (JObject record_no_type) asha)))) =
  Return (Some (BankAccount (PStr "1003") (PStr "Lena") (PFloat 10))).
Proof.
  apply (save_to_file_keeps_other_accounts working_directory repr_unused
           (with_file "1003.json" (JObject record_no_type) asha) (PStr "1003")).
  discriminate.
Defined.

(** A savings record without a rate, loaded and saved: the rate is in the
    file. *)
Lemma load_then_save_rewrites_record_witness :
  exists saved : gmap string pyval,
    files (snd (save_to_file working_directory repr_unused
                  (State (SavingsAccount (PStr "1003") (PStr "Lena") (PFloat 10)
                            (PFloat 0.05))
                     [] {[ "1003.json" := JObject record_savings_no_rate ]})))
      !! "1003.json" = Some (JObject saved) /\
    saved !! "interest_rate" = Some (PFloat 0.05) /\
    saved !! "type" = Some (PStr "SavingsAccount").
Proof.
  destruct (load_then_save_rewrites_record working_directory repr_unused
              (with_file "1003.json" (JObject record_savings_no_rate) asha)
              (PStr "1003") record_savings_no_rate
              (SavingsAccount (PStr "1003") (PStr "Lena") (PFloat 10) (PFloat 0.05))
              (with_file "1003.json" (JObject record_savings_no_rate) asha)
              eq_refl eq_refl)
    as (saved & Hfile & _ & Htype & _ & _ & _ & Hrate & _).
  exists saved. exact (conj Hfile (conj Hrate Htype)).
Defined.

Lemma withdraw_whole_balance_witness :
  withdraw (PFloat 200) (fresh ravi) =
    (Return tt,
     State (SavingsAccount (PStr "S1") (PStr "Ravi") (PFloat 0) (PFloat 0.05))
       [Withdrawn (PFloat 200)] ∅) /\
  balance (self (snd (withdraw (PFloat 200) (fresh ravi)))) = PFloat 0.
Proof.
  apply (withdraw_whole_balance (fresh ravi) 200 eq_refl eq_refl). discriminate.
Defined.

Lemma check_balance_details_witness :
  Console.check_balance working_directory repr_unused
    (session_with_file ["1003"] "1003.json" (JObject record_text_balance)) =
    (Console.Err
       (Console.Py (ValueError "Unknown format code 'f' for object of type 'str'")),
     Console.Session []
       [Console.Asked Console.Ask_account_number; Console.Details_header;
        Console.Details_number (PStr "1003"); Console.Details_holder (PStr "Lena")]
       {[ "1003.json" := JObject record_text_balance ]}).
Proof.
  exact (check_balance_details working_directory repr_unused
           (session_with_file ["1003"] "1003.json" (JObject record_text_balance))
           "1003" [] record_text_balance (PStr "1003") (PStr "Lena") (PStr "ten")
           eq_refl eq_refl eq_refl eq_refl eq_refl).
Defined.

Lemma create_account_not_numeric_witness :
  Console.create_account working_directory repr_unused parse_examples
    (Console.Session ["1001"; "Asha"; "ten"; "1"] [] ∅) =
    (Console.Ok tt,
     Console.Session ["1"]
       [Console.Create_banner; Console.Asked Console.Ask_new_account_number;
        Console.Asked Console.Ask_holder_name;
        Console.Asked Console.Ask_initial_deposit; Console.Not_numeric]
       ∅).
Proof.
  exact (create_account_not_numeric working_directory repr_unused parse_examples
           (Console.Session ["1001"; "Asha"; "ten"; "1"] [] ∅)
           "1001" "Asha" "ten" ["1"] eq_refl eq_refl).
Defined.

(** An account created over Asha's, with a negative deposit. *)
Lemma create_account_then_load_witness :
  fst (Console.create_account working_directory repr_unused parse_examples
         (session_with_file ["1001"; "Omar"; "-50"; "2"] "1001.json" (JObject record_asha)))
    = Console.Ok tt /\
  forall s,
    files s =
      Console.disk
        (snd (Console.create_account working_directory repr_unused parse_examples
                (session_with_file ["1001"; "Omar"; "-50"; "2"] "1001.json"
                   (JObject record_asha)))) ->
    fst (load_from_file working_directory repr_unused (PStr "1001") s) =
    Return (Some (SavingsAccount (PStr "1001") (PStr "Omar") (PFloat (-50)) (PFloat 0.05))).
Proof.
  pose proof (create_account_then_load working_directory repr_unused parse_examples
                (session_with_file ["1001"; "Omar"; "-50"; "2"] "1001.json"
                   (JObject record_asha))
                "1001" "Omar" "-50" "2" [] (-50) eq_refl eq_refl) as H.
  hnf in H. destruct H as (Hok & _ & _ & Hload).
  exact (conj Hok Hload).
Defined.

Lemma deposit_money_saves_witness :
  exists (saved : gmap string pyval) (saved_line : line),
    Console.deposit_money working_directory repr_unused parse_examples
      (session_with_file ["1001"; "30"] "1001.json" (JObject record_asha)) =
      (Console.Ok tt,
       Console.Session []
         [Console.Asked Console.Ask_account_number;
          Console.Asked Console.Ask_deposit_amount;
          Console.Method (Deposited (PFloat 30)); Console.Method saved_line]
         (<["1001.json" := JObject saved]> {[ "1001.json" := JObject record_asha ]})) /\
    (saved_line = Account_saved \/ saved_line = Savings_saved) /\
    saved !! "account_number" = Some (PStr "1001") /\
    saved !! "name" = Some (PStr "Asha") /\
    saved !! "balance" = Some (PFloat 130).
Proof.
  exact (deposit_money_saves working_directory repr_unused parse_examples
           (session_with_file ["1001"; "30"] "1001.json" (JObject record_asha))
           "1001" "30" [] record_asha (PStr "1001") (PStr "Asha") 100 30
           eq_refl eq_refl eq_refl eq_refl eq_refl eq_refl).
Defined.

(** A withdrawal above the balance: refused, and saved all the same. *)
Lemma withdraw_money_saves_witness :
  exists (saved : gmap string pyval) (saved_line : line),
    Console.withdraw_money working_directory repr_unused parse_examples
      (session_with_file ["1001"; "500"] "1001.json" (JObject record_asha)) =
      (Console.Ok tt,
       Console.Session []
         [Console.Asked Console.Ask_account_number;
          Console.Asked Console.Ask_withdraw_amount;
          Console.Method (Error "Insufficient balance!"); Console.Method saved_line]
         (<["1001.json" := JObject saved]> {[ "1001.json" := JObject record_asha ]})) /\
    (saved_line = Account_saved \/ saved_line = Savings_saved) /\
    saved !! "account_number" = Some (PStr "1001") /\
    saved !! "name" = Some (PStr "Asha") /\
    saved !! "balance" = Some (PFloat 100).
Proof.
  exact (withdraw_money_saves working_directory repr_unused parse_examples
           (session_with_file ["1001"; "500"] "1001.json" (JObject record_asha))
           "1001" "500" [] record_asha (PStr "1001") (PStr "Asha") 100 500
           eq_refl eq_refl eq_refl eq_refl eq_refl eq_refl).
Defined.

Lemma money_no_account_witness :
  Console.deposit_money working_directory repr_unused parse_examples
    (session_with_file ["1004"; "30"] "1001.json" (JObject record_asha)) =
    (Console.Ok tt,
     Console.Session ["30"]
       [Console.Asked Console.Ask_account_number; Console.Method Account_not_found]
       {[ "1001.json" := JObject record_asha ]}).
Proof.
  exact (proj1 (money_no_account working_directory repr_unused parse_examples
                  (session_with_file ["1004"; "30"] "1001.json" (JObject record_asha))
                  "1004" ["30"] eq_refl eq_refl)).
Defined.

Lemma money_not_numeric_witness :
  Console.withdraw_money working_directory repr_unused parse_examples
    (session_with_file ["1001"; "ten"] "1001.json" (JObject record_asha)) =
    (Console.Ok tt,
     Console.Session []
       [Console.Asked Console.Ask_account_number;
        Console.Asked Console.Ask_withdraw_amount; Console.Not_numeric]
       {[ "1001.json" := JObject record_asha ]}).
Proof.
  exact (proj2 (money_not_numeric working_directory repr_unused parse_examples
                  (session_with_file ["1001"; "ten"] "1001.json" (JObject record_asha))
                  "1001" "ten" [] record_asha (PStr "1001") (PStr "Asha") (PFloat 100)
                  eq_refl eq_refl eq_refl eq_refl eq_refl eq_refl)).
Defined.

Lemma interest_for_savings_only_witness :
  Console.calculate_interest working_directory repr_unused
    (session_with_file ["1001"] "1001.json" (JObject record_asha)) =
    (Console.Ok tt,
     Console.Session []
       [Console.Asked Console.Ask_account_number; Console.Savings_only]
       {[ "1001.json" := JObject record_asha ]}) /\
  Console.calculate_interest working_directory repr_unused
    (session_with_file ["1003"] "1003.json" (JObject record_savings_no_rate)) =
    (Console.Ok tt,
     Console.Session []
       [Console.Asked Console.Ask_account_number;
        Console.Method (Annual_interest (PFloat 0.05) (PFloat 0.5))]
       {[ "1003.json" := JObject record_savings_no_rate ]}).
Proof.
  split.
  - refine (proj1 (proj2 (interest_for_savings_only working_directory repr_unused
                            (session_with_file ["1001"] "1001.json" (JObject record_asha))
                            "1001" [] eq_refl)
                     record_asha (PStr "1001") (PStr "Asha") (PFloat 100)
                     eq_refl eq_refl eq_refl eq_refl) _).
    discriminate.
  - exact (proj2 (proj2 (interest_for_savings_only working_directory repr_unused
                           (session_with_file ["1003"] "1003.json"
                              (JObject record_savings_no_rate))
                           "1003" [] eq_refl)
                    record_savings_no_rate (PStr "1003") (PStr "Lena") (PFloat 10)
                    eq_refl eq_refl eq_refl eq_refl) 10 0.05 eq_refl eq_refl eq_refl).
Defined.

(** Two wrong choices, then "6": the loop returns; what follows is not
    read. *)
Lemma main_ends_witness :
  fst (Console.main working_directory repr_unused parse_examples 5
         (Console.Session ["9"; ""; "6"; "1"] [] ∅)) = Console.Ok (Some tt) /\
  Console.stdin (snd (Console.main working_directory repr_unused parse_examples 5
                        (Console.Session ["9"; ""; "6"; "1"] [] ∅))) = ["1"] /\
  forall fuel', 4 < fuel' ->
    Console.main working_directory repr_unused parse_examples fuel'
      (Console.Session ["9"; ""; "6"; "1"] [] ∅) =
    Console.main working_directory repr_unused parse_examples 5
      (Console.Session ["9"; ""; "6"; "1"] [] ∅).
Proof.
  assert (Hlen : length (Console.stdin (Console.Session ["9"; ""; "6"; "1"] [] ∅)) < 5)
    by (simpl; lia).
  destruct (main_ends working_directory repr_unused parse_examples 5
              (Console.Session ["9"; ""; "6"; "1"] [] ∅) Hlen) as [_ Hfuel].
  exact (conj eq_refl (conj eq_refl Hfuel)).
Defined.

Lemma main_damaged_record_witness :
  exists key,
    Console.main working_directory repr_unused parse_examples 1
      (session_with_file ["4"; "1003"; "6"] "1003.json" (JObject record_no_balance)) =
      (Console.Err (Console.Py (KeyError key)),
       Console.Session ["6"]
         [Console.Menu; Console.Asked Console.Ask_choice;
          Console.Asked Console.Ask_account_number]
         {[ "1003.json" := JObject record_no_balance ]}) /\
    record_no_balance !! key = None.
Proof.
  apply (main_damaged_record working_directory repr_unused parse_examples 0
           (session_with_file ["4"; "1003"; "6"] "1003.json" (JObject record_no_balance))
           "4" "1003" ["6"] record_no_balance eq_refl).
  - apply elem_of_cons. right. apply elem_of_cons. right.
    apply elem_of_cons. left. reflexivity.
  - reflexivity.
  - right. right. reflexivity.
Defined.

End Further_examples.
